(** * GitGutter settings resolver (git_gutter_settings.py)

    A shallow embedding of [GitGutterSettings] and of the part of the
    Sublime Text host it talks to, followed by the properties of the
    resolver that the specification states.

    The host (settings files, platform, environment, file system probes,
    resource index, dialogs) is a record [Host]; the resolver object is a
    record [Settings]; methods are computations in a state-and-exception
    monad over the pair of both, so that what a method has already
    assigned is kept when it raises. *)

From Stdlib Require Import ZArith Ascii String List Bool Lia.
From stdpp Require Import base option gmap strings list.

Local Open Scope Z_scope.
Local Open Scope string_scope.

(** ** Python values found in settings files *)

#[warnings="-register-all"]
Inductive value : Type :=
| VNone
| VBool (b : bool)
| VInt (z : Z)
| VStr (s : string)
| VDict (d : gmap string value).

(** Python truthiness: [bool(v)]. *)
Definition truthy (v : value) : bool :=
  match v with
  | VNone => false
  | VBool b => b
  | VInt z => negb (Z.eqb z 0)
  | VStr s => negb (String.eqb s EmptyString)
  | VDict d => negb (bool_decide (size d = 0%nat))
  end.

(** [a or b]. *)
Definition py_or (a b : value) : value := if truthy a then a else b.

(** [v == s] for a string literal [s]. *)
Definition eq_str (v : value) (s : string) : bool :=
  match v with
  | VStr t => String.eqb t s
  | _ => false
  end.

(** [d.get(k)] on a Python dict. *)
Definition dict_get (d : gmap string value) (k : string) : value :=
  default VNone (d !! k).

(** ** Exceptions and results *)

Inductive exn : Type :=
| ValueError (msg : string)
| KeyError (key : string)
| AttributeError
| TypeError.

Inductive result (A : Type) : Type :=
| Ok (a : A)
| Raise (e : exn).
Arguments Ok {A} a.
Arguments Raise {A} e.

(** ** The host *)

(** The two settings files the module loads by name. [sublime.load_settings]
    hands out one shared object per name, so the resolver keeps the name
    and every read goes to the host's current contents. *)
Inductive settings_file : Type :=
| GitGutter_sublime_settings
| Preferences_sublime_settings.

Inductive host_event : Type :=
| EvErrorMessage (msg : string)
| EvFindResources (pattern : value).

Record Host : Type := mkHost {
  sublime_version : Z;
  sublime_platform : string;
  plugin_file : gmap string value;
  preferences_file : gmap string value;
  os_environ : gmap string string;
  os_pathsep : ascii;
  os_path_join : string -> string -> string;
  os_path_isfile : string -> bool;
  os_access_X_OK : string -> bool;
  os_path_expandvars : string -> string;
  os_path_expandvars_nonstr : value -> result value;
  os_path_basename : string -> string;
  os_path_dirname : string -> string;
  os_path_splitext : string -> string * string;
  shutil_which_git : option string;
  sublime_find_resources : string -> list string;
  sublime_find_resources_nonstr : value -> result (list string);
  events : list host_event
}.

(** [STVER = int(sublime.version())], [ST3 = STVER >= 3000]. *)
Definition STVER (h : Host) : Z := sublime_version h.
Definition ST3 (h : Host) : bool := Z.leb 3000 (STVER h).

Definition file_store (h : Host) (f : settings_file) : gmap string value :=
  match f with
  | GitGutter_sublime_settings => plugin_file h
  | Preferences_sublime_settings => preferences_file h
  end.

Definition set_file_store (h : Host) (f : settings_file)
    (m : gmap string value) : Host :=
  match f with
  | GitGutter_sublime_settings =>
      mkHost (sublime_version h) (sublime_platform h) m (preferences_file h)
        (os_environ h) (os_pathsep h) (os_path_join h) (os_path_isfile h)
        (os_access_X_OK h) (os_path_expandvars h)
        (os_path_expandvars_nonstr h) (os_path_basename h)
        (os_path_dirname h) (os_path_splitext h) (shutil_which_git h)
        (sublime_find_resources h) (sublime_find_resources_nonstr h)
        (events h)
  | Preferences_sublime_settings =>
      mkHost (sublime_version h) (sublime_platform h) (plugin_file h) m
        (os_environ h) (os_pathsep h) (os_path_join h) (os_path_isfile h)
        (os_access_X_OK h) (os_path_expandvars h)
        (os_path_expandvars_nonstr h) (os_path_basename h)
        (os_path_dirname h) (os_path_splitext h) (shutil_which_git h)
        (sublime_find_resources h) (sublime_find_resources_nonstr h)
        (events h)
  end.

Definition log_event (h : Host) (e : host_event) : Host :=
  mkHost (sublime_version h) (sublime_platform h) (plugin_file h)
    (preferences_file h) (os_environ h) (os_pathsep h) (os_path_join h)
    (os_path_isfile h) (os_access_X_OK h) (os_path_expandvars h)
    (os_path_expandvars_nonstr h) (os_path_basename h) (os_path_dirname h)
    (os_path_splitext h) (shutil_which_git h) (sublime_find_resources h)
    (sublime_find_resources_nonstr h) (events h ++ [e]).

(** [Settings.get(key, default)], [Settings.get(key)], [Settings.has(key)]
    of the host's settings objects. *)
Definition store_get (m : gmap string value) (key : string) (dflt : value)
    : value :=
  default dflt (m !! key).

Definition store_has (m : gmap string value) (key : string) : bool :=
  bool_decide (is_Some (m !! key)).

(** A view: only its settings are read. *)
Record View : Type := mkView { view_settings : gmap string value }.

(** ** The resolver object *)

Record Settings : Type := mkSettings {
  _settings : option settings_file;
  _user_settings : option settings_file;
  _git_binary_path_fallback : value;
  _git_binary_path_error_shown : bool;
  _compare_against_mapping : gmap string value;
  git_binary_path : value;
  ignore_whitespace : value;
  patience_switch : value;
  package_name : string;
  _builtin_theme_path : string;
  _theme_path : string
}.

(** [GitGutterSettings.__init__]; the package name comes from the install
    directory of the module. *)
Definition init (st3 : bool) (pkg : string) : Settings :=
  {| _settings := None;
     _user_settings := None;
     _git_binary_path_fallback := VNone;
     _git_binary_path_error_shown := false;
     _compare_against_mapping := ∅;
     git_binary_path := VNone;
     ignore_whitespace := VBool false;
     patience_switch := VStr EmptyString;
     package_name := pkg;
     _builtin_theme_path :=
       (if st3 then "Packages" else "..") ++ "/" ++ pkg ++ "/themes";
     _theme_path := EmptyString |}.

(** ** State and exceptions *)

Record Sys : Type := mkSys { host : Host; self : Settings }.

Definition M (A : Type) : Type := Sys -> Sys * result A.

Definition ret {A} (a : A) : M A := fun s => (s, Ok a).
Definition raise {A} (e : exn) : M A := fun s => (s, Raise e).
Definition bind {A B} (c : M A) (k : A -> M B) : M B :=
  fun s =>
    match c s with
    | (s', Ok a) => k a s'
    | (s', Raise e) => (s', Raise e)
    end.

Notation "'let*' x ':=' c 'in' k" := (bind c (fun x => k))
  (at level 10, x name, c at level 100, k at level 200).
Notation "c ';;;' k" := (bind c (fun _ => k))
  (at level 100, k at level 200, right associativity).

Definition read {A} (f : Sys -> A) : M A := fun s => (s, Ok (f s)).
Definition update_self (f : Settings -> Settings) : M unit :=
  fun s => (mkSys (host s) (f (self s)), Ok tt).
Definition update_host (f : Host -> Host) : M unit :=
  fun s => (mkSys (f (host s)) (self s), Ok tt).
Definition lift_result {A} (r : result A) : M A := fun s => (s, r).

Definition when (b : bool) (c : M unit) : M unit := if b then c else ret tt.

(** Field assignments on the resolver. *)
Definition set__settings (o : option settings_file) (r : Settings) :=
  mkSettings o (_user_settings r) (_git_binary_path_fallback r)
    (_git_binary_path_error_shown r) (_compare_against_mapping r)
    (git_binary_path r) (ignore_whitespace r) (patience_switch r)
    (package_name r) (_builtin_theme_path r) (_theme_path r).
Definition set__user_settings (o : option settings_file) (r : Settings) :=
  mkSettings (_settings r) o (_git_binary_path_fallback r)
    (_git_binary_path_error_shown r) (_compare_against_mapping r)
    (git_binary_path r) (ignore_whitespace r) (patience_switch r)
    (package_name r) (_builtin_theme_path r) (_theme_path r).
Definition set__git_binary_path_fallback (v : value) (r : Settings) :=
  mkSettings (_settings r) (_user_settings r) v
    (_git_binary_path_error_shown r) (_compare_against_mapping r)
    (git_binary_path r) (ignore_whitespace r) (patience_switch r)
    (package_name r) (_builtin_theme_path r) (_theme_path r).
Definition set__git_binary_path_error_shown (b : bool) (r : Settings) :=
  mkSettings (_settings r) (_user_settings r) (_git_binary_path_fallback r)
    b (_compare_against_mapping r)
    (git_binary_path r) (ignore_whitespace r) (patience_switch r)
    (package_name r) (_builtin_theme_path r) (_theme_path r).
Definition set__compare_against_mapping (m : gmap string value)
    (r : Settings) :=
  mkSettings (_settings r) (_user_settings r) (_git_binary_path_fallback r)
    (_git_binary_path_error_shown r) m
    (git_binary_path r) (ignore_whitespace r) (patience_switch r)
    (package_name r) (_builtin_theme_path r) (_theme_path r).
Definition set_git_binary_path (v : value) (r : Settings) :=
  mkSettings (_settings r) (_user_settings r) (_git_binary_path_fallback r)
    (_git_binary_path_error_shown r) (_compare_against_mapping r)
    v (ignore_whitespace r) (patience_switch r)
    (package_name r) (_builtin_theme_path r) (_theme_path r).
Definition set_ignore_whitespace (v : value) (r : Settings) :=
  mkSettings (_settings r) (_user_settings r) (_git_binary_path_fallback r)
    (_git_binary_path_error_shown r) (_compare_against_mapping r)
    (git_binary_path r) v (patience_switch r)
    (package_name r) (_builtin_theme_path r) (_theme_path r).
Definition set_patience_switch (v : value) (r : Settings) :=
  mkSettings (_settings r) (_user_settings r) (_git_binary_path_fallback r)
    (_git_binary_path_error_shown r) (_compare_against_mapping r)
    (git_binary_path r) (ignore_whitespace r) v
    (package_name r) (_builtin_theme_path r) (_theme_path r).
Definition set__theme_path (p : string) (r : Settings) :=
  mkSettings (_settings r) (_user_settings r) (_git_binary_path_fallback r)
    (_git_binary_path_error_shown r) (_compare_against_mapping r)
    (git_binary_path r) (ignore_whitespace r) (patience_switch r)
    (package_name r) (_builtin_theme_path r) p.

(** Calls on a settings object held in a field that may still be [None]. *)
Definition obj_get (o : option settings_file) (key : string) (dflt : value)
    : M value :=
  match o with
  | Some f => read (fun s => store_get (file_store (host s) f) key dflt)
  | None => raise AttributeError
  end.

Definition obj_set (o : option settings_file) (key : string) (v : value)
    : M value :=
  match o with
  | Some f =>
      update_host (fun h => set_file_store h f (<[key:=v]> (file_store h f)))
      ;;; ret VNone
  | None => raise AttributeError
  end.

(** ** String helpers of the executable search *)

(** [s.split(sep)] for a one-character separator. *)
Fixpoint split_on (sep : ascii) (s : string) : list string :=
  match s with
  | EmptyString => [EmptyString]
  | String c rest =>
      if Ascii.eqb c sep then EmptyString :: split_on sep rest
      else match split_on sep rest with
           | [] => [String c EmptyString]
           | w :: ws => String c w :: ws
           end
  end.

Fixpoint lstrip_char (c : ascii) (s : string) : string :=
  match s with
  | EmptyString => EmptyString
  | String a rest => if Ascii.eqb a c then lstrip_char c rest else s
  end.

Fixpoint rstrip_char (c : ascii) (s : string) : string :=
  match s with
  | EmptyString => EmptyString
  | String a rest =>
      match rstrip_char c rest with
      | EmptyString => if Ascii.eqb a c then EmptyString
                       else String a EmptyString
      | r => String a r
      end
  end.

(** [s.strip(c)] for a one-character set. *)
Definition strip_char (c : ascii) (s : string) : string :=
  rstrip_char c (lstrip_char c s).

Definition double_quote : ascii := Ascii.ascii_of_nat 34.

Definition opt_value (o : option string) : value :=
  match o with
  | Some p => VStr p
  | None => VNone
  end.

(** ** load_settings *)

Definition not_found_msg : string :=
  "Your Git binary cannot be found. If it is installed, " ++
  "add it to your PATH environment variable, or add " ++
  "a `git_binary` setting in the " ++
  "`User/GitGutter.sublime-settings` file.".

(** Lines 99-107: the configured value, a per-platform dict resolved. *)
Definition configure_git_binary : M unit :=
  let* user := read (fun s => _user_settings (self s)) in
  let* plugin := read (fun s => _settings (self s)) in
  let* u := obj_get user "git_binary" VNone in
  let* p := obj_get plugin "git_binary" VNone in
  match py_or u p with
  | VDict d =>
      let* platform := read (fun s => sublime_platform (host s)) in
      update_self (set_git_binary_path (dict_get d platform)) ;;;
      let* path := read (fun s => git_binary_path (self s)) in
      when (negb (truthy path))
        (update_self (set_git_binary_path (dict_get d "default")))
  | git_binary_setting =>
      update_self (set_git_binary_path git_binary_setting)
  end.

(** Lines 117-123: the search along PATH of a pre-ST3 host. *)
Definition search_PATH : M unit :=
  let* h := read host in
  let git_exe :=
    if String.eqb (sublime_platform h) "windows" then "git.exe" else "git" in
  match os_environ h !! "PATH" with
  | None => raise (KeyError "PATH")
  | Some path_var =>
      let candidates :=
        map (fun folder =>
               os_path_join h (strip_char double_quote folder) git_exe)
            (split_on (os_pathsep h) path_var) in
      match List.find (fun path => os_path_isfile h path
                                   && os_access_X_OK h path) candidates with
      | Some path =>
          update_self (set_git_binary_path (VStr path)) ;;;
          update_self (set__git_binary_path_fallback (VStr path))
      | None => ret tt
      end
  end.

(** Lines 109-123. *)
Definition locate_git_binary : M unit :=
  let* path := read (fun s => git_binary_path (self s)) in
  let* fallback := read (fun s => _git_binary_path_fallback (self s)) in
  let* h := read host in
  if truthy path then
    let* expanded :=
      lift_result match path with
                  | VStr p => Ok (VStr (os_path_expandvars h p))
                  | v => os_path_expandvars_nonstr h v
                  end in
    update_self (set_git_binary_path expanded)
  else if truthy fallback then
    update_self (set_git_binary_path fallback)
  else if ST3 h then
    update_self (set_git_binary_path (opt_value (shutil_which_git h))) ;;;
    update_self
      (set__git_binary_path_fallback (opt_value (shutil_which_git h)))
  else search_PATH.

(** Lines 125-133. *)
Definition report_missing_git_binary : M unit :=
  let* path := read (fun s => git_binary_path (self s)) in
  let* shown := read (fun s => _git_binary_path_error_shown (self s)) in
  when (negb (truthy path))
    (when (negb shown)
       (update_self (set__git_binary_path_error_shown true) ;;;
        update_host (fun h => log_event h (EvErrorMessage not_found_msg)) ;;;
        raise (ValueError "Git binary not found."))).

(** Lines 135-147. *)
Definition load_diff_switches : M unit :=
  let* plugin := read (fun s => _settings (self s)) in
  let* w := obj_get plugin "ignore_whitespace" VNone in
  update_self (set_ignore_whitespace w) ;;;
  (if eq_str w "all" then update_self (set_ignore_whitespace (VStr "-w"))
   else if eq_str w "eol" then
     update_self (set_ignore_whitespace (VStr "--ignore-space-at-eol"))
   else update_self (set_ignore_whitespace (VStr EmptyString))) ;;;
  update_self (set_patience_switch (VStr EmptyString)) ;;;
  let* patience := obj_get plugin "patience" VNone in
  when (truthy patience)
    (update_self (set_patience_switch (VStr "--patience"))).

Definition load_settings : M unit :=
  update_self (set__settings (Some GitGutter_sublime_settings)) ;;;
  update_self (set__user_settings (Some Preferences_sublime_settings)) ;;;
  configure_git_binary ;;;
  locate_git_binary ;;;
  report_missing_git_binary ;;;
  load_diff_switches.

(** ** Accessors *)

Definition get (key : string) (dflt : value) : M value :=
  let* o := read (fun s => _settings (self s)) in
  let* h := read host in
  when (match o with
        | None => true
        | Some f => negb (store_has (file_store h f) key)
        end) load_settings ;;;
  let* o' := read (fun s => _settings (self s)) in
  obj_get o' key dflt.

Definition set (key : string) (v : value) : M value :=
  let* o := read (fun s => _settings (self s)) in
  when (match o with None => true | Some _ => false end) load_settings ;;;
  let* o' := read (fun s => _settings (self s)) in
  obj_set o' key v.

Definition get_compare_against (git_tree : string) (view : View) : M value :=
  let* mapping := read (fun s => _compare_against_mapping (self s)) in
  match mapping !! git_tree with
  | Some target => ret target
  | None =>
      let compare :=
        store_get (view_settings view) "git_gutter_compare_against" VNone in
      if negb (truthy compare) then get "compare_against" (VStr "HEAD")
      else ret compare
  end.

Definition set_compare_against (git_tree : string)
    (new_compare_against : value) : M unit :=
  update_self (fun r =>
    set__compare_against_mapping
      (<[git_tree:=new_compare_against]> (_compare_against_mapping r)) r).

(** [0 <= width] of Python 3: integers (and booleans, which are integers)
    compare, anything else is a type error. *)
Definition zero_le (width : value) : result bool :=
  match width with
  | VInt z => Ok (Z.leb 0 z)
  | VBool _ => Ok true
  | _ => Raise TypeError
  end.

Definition get_show_in_minimap (view : View) : M value :=
  let* h := read host in
  if negb (ST3 h) then ret (VInt 0)
  else
    let width :=
      store_get (view_settings view) "git_gutter_show_in_minimap" VNone in
    let* width :=
      match width with
      | VNone => get "show_in_minimap" (VInt 1)
      | _ => ret width
      end in
    let* nonneg := lift_result (zero_le width) in
    ret (if nonneg then width else VInt 100000).

Definition default_theme_path (r : Settings) : string :=
  _builtin_theme_path r ++ "/Default".

Definition theme_path : M value :=
  let* theme := get "theme" (VStr "Default.gitgutter-theme") in
  let* h := read host in
  let* cached := read (fun s => _theme_path (self s)) in
  when (negb (eq_str theme (os_path_basename h cached)))
    (if ST3 h then
       update_host (fun h => log_event h (EvFindResources theme)) ;;;
       let* themes :=
         lift_result match theme with
                     | VStr t => Ok (sublime_find_resources h t)
                     | v => sublime_find_resources_nonstr h v
                     end in
       update_self (fun r =>
         set__theme_path
           match last themes with
           | Some m => os_path_dirname h m
           | None => default_theme_path r
           end r)
     else
       match theme with
       | VStr t =>
           update_self (fun r =>
             set__theme_path
               (_builtin_theme_path r ++ "/" ++ fst (os_path_splitext h t)) r)
       | _ => raise AttributeError
       end) ;;;
  let* p := read (fun s => _theme_path (self s)) in
  ret (VStr p).

(** ** A process: calls on the resolver between changes of the host *)

(** The host as it is after the user, the file system or the environment
    changed: everything may differ except the version the process started
    with and the dialogs already shown. *)
Definition change_host (env : Host) (h : Host) : Host :=
  mkHost (sublime_version h) (sublime_platform env) (plugin_file env)
    (preferences_file env) (os_environ env) (os_pathsep env)
    (os_path_join env) (os_path_isfile env) (os_access_X_OK env)
    (os_path_expandvars env) (os_path_expandvars_nonstr env)
    (os_path_basename env) (os_path_dirname env) (os_path_splitext env)
    (shutil_which_git env) (sublime_find_resources env)
    (sublime_find_resources_nonstr env) (events h).

Inductive call : Type :=
| CallLoadSettings
| CallGet (key : string) (dflt : value)
| CallSet (key : string) (v : value)
| CallGetCompareAgainst (git_tree : string) (view : View)
| CallSetCompareAgainst (git_tree : string) (target : value)
| CallGetShowInMinimap (view : View)
| CallThemePath
| HostChange (env : Host).

(** The state a call leaves behind; an exception ends the call, not the
    process. *)
Definition exec (c : call) (s : Sys) : Sys :=
  match c with
  | CallLoadSettings => fst (load_settings s)
  | CallGet key dflt => fst (get key dflt s)
  | CallSet key v => fst (set key v s)
  | CallGetCompareAgainst t view => fst (get_compare_against t view s)
  | CallSetCompareAgainst t target => fst (set_compare_against t target s)
  | CallGetShowInMinimap view => fst (get_show_in_minimap view s)
  | CallThemePath => fst (theme_path s)
  | HostChange env => mkSys (change_host env (host s)) (self s)
  end.

Definition run (cs : list call) (s : Sys) : Sys :=
  fold_left (fun s c => exec c s) cs s.

(** The module's [settings = GitGutterSettings()]. The [plugin_loaded] that
    follows it (called by the host, or by the module itself before Sublime
    Text 3) is a [CallLoadSettings] of the process. *)
Definition startup (h : Host) (pkg : string) : Sys :=
  mkSys h (init (ST3 h) pkg).

Definition is_error_message (e : host_event) : bool :=
  match e with
  | EvErrorMessage _ => true
  | EvFindResources _ => false
  end.

Definition dialogs_shown (s : Sys) : nat :=
  length (filter (fun e => is_error_message e = true) (events (host s))).

Definition resource_searches (s : Sys) : nat :=
  length (filter (fun e => is_error_message e = false) (events (host s))).

(** ** POSIX path functions, for concrete hosts *)

Module posixpath.

(** [s.rpartition(c)] when [c] occurs: what is before and after its last
    occurrence. *)
Fixpoint rpartition (c : ascii) (s : string) : option (string * string) :=
  match s with
  | EmptyString => None
  | String a rest =>
      match rpartition c rest with
      | Some (before, after) => Some (String a before, after)
      | None => if Ascii.eqb a c then Some (EmptyString, rest) else None
      end
  end.

Definition slash : ascii := Ascii.ascii_of_nat 47.
Definition dot : ascii := Ascii.ascii_of_nat 46.

Definition basename (p : string) : string :=
  match rpartition slash p with
  | Some (_, tail) => tail
  | None => p
  end.

Definition dirname (p : string) : string :=
  match rpartition slash p with
  | Some (before, _) =>
      match rstrip_char slash before with
      | EmptyString => before ++ "/"
      | head => head
      end
  | None => EmptyString
  end.

Definition splitext (p : string) : string * string :=
  let (dir, file) :=
    match rpartition slash p with
    | Some (before, tail) => (before ++ "/", tail)
    | None => (EmptyString, p)
    end in
  match rpartition dot file with
  | Some (stem, ext) =>
      match lstrip_char dot stem with
      | EmptyString => (p, EmptyString)
      | _ => (dir ++ stem, "." ++ ext)
      end
  | None => (p, EmptyString)
  end.

Definition join (a b : string) : string :=
  match b with
  | String c _ =>
      if Ascii.eqb c slash then b
      else match rpartition slash a with
           | Some (_, EmptyString) => a ++ b
           | _ => if String.eqb a EmptyString then b else a ++ "/" ++ b
           end
  | EmptyString =>
      match rpartition slash a with
      | Some (_, EmptyString) => a
      | _ => if String.eqb a EmptyString then a else a ++ "/"
      end
  end.

End posixpath.

(** A Linux host without variables to expand: settings files, the result of
    [shutil.which], the executables on disk and the resource index are
    given. *)
Definition linux_host (version : Z) (plugin prefs : gmap string value)
    (environ : gmap string string) (executables : list string)
    (which : option string) (resources : string -> list string) : Host :=
  {| sublime_version := version;
     sublime_platform := "linux";
     plugin_file := plugin;
     preferences_file := prefs;
     os_environ := environ;
     os_pathsep := Ascii.ascii_of_nat 58;
     os_path_join := posixpath.join;
     os_path_isfile := fun p => bool_decide (p ∈ executables);
     os_access_X_OK := fun p => bool_decide (p ∈ executables);
     os_path_expandvars := fun p => p;
     os_path_expandvars_nonstr := fun _ => Raise TypeError;
     os_path_basename := posixpath.basename;
     os_path_dirname := posixpath.dirname;
     os_path_splitext := posixpath.splitext;
     shutil_which_git := which;
     sublime_find_resources := resources;
     sublime_find_resources_nonstr := fun _ => Raise TypeError;
     events := [] |}.

(** ** Notions the statements and their proofs use *)

(** A relation between the state before and after: [c] keeps [R] when
    every run of [c], returning or raising, ends in a state related to the
    one it started in. *)
Definition preserves (R : Sys -> Sys -> Prop) {A} (c : M A) : Prop :=
  forall s, R s (fst (c s)).

(** The host without its event log. *)
Definition environment (h : Host) : Host :=
  mkHost (sublime_version h) (sublime_platform h) (plugin_file h)
    (preferences_file h) (os_environ h) (os_pathsep h) (os_path_join h)
    (os_path_isfile h) (os_access_X_OK h) (os_path_expandvars h)
    (os_path_expandvars_nonstr h) (os_path_basename h) (os_path_dirname h)
    (os_path_splitext h) (shutil_which_git h) (sublime_find_resources h)
    (sublime_find_resources_nonstr h) [].

(** What [load_settings] and [get] leave alone: the host apart from its
    log, the number of resource searches, the overrides and the theme
    paths. *)
Record frame (s s' : Sys) : Prop := mkFrame {
  frame_environment : environment (host s') = environment (host s);
  frame_searches : resource_searches s' = resource_searches s;
  frame_mapping :
    _compare_against_mapping (self s') = _compare_against_mapping (self s);
  frame_theme_path : _theme_path (self s') = _theme_path (self s);
  frame_builtin :
    _builtin_theme_path (self s') = _builtin_theme_path (self s)
}.

(** The test of [get]: the store is unset or lacks the key. *)
Definition needs_load (s : Sys) (key : string) : bool :=
  match _settings (self s) with
  | None => true
  | Some f => negb (store_has (file_store (host s) f) key)
  end.

(** Nothing after the first two assignments rebinds the stores. *)
Definition keeps_stores (s s' : Sys) : Prop :=
  _settings (self s') = _settings (self s) /\
  _user_settings (self s') = _user_settings (self s).

(** The plugin's store is rebound at most to the plugin's file. *)
Definition rebinds_plugin_store (s s' : Sys) : Prop :=
  _settings (self s') = _settings (self s) \/
  _settings (self s') = Some GitGutter_sublime_settings.

(** Concrete processes. Sublime Text 3 on Linux, nothing configured, no git
    anywhere. *)
Definition bare_host : Host :=
  linux_host 3126 ∅ ∅ ∅ [] None (fun _ => []).

(** Sublime Text 3 on Linux with git on the PATH and the given plugin
    settings. *)
Definition git_host (plugin : gmap string value) : Host :=
  linux_host 3126 plugin ∅ ∅ [] (Some "/usr/bin/git") (fun _ => []).

(** Sublime Text 2 on Linux with the given plugin settings. *)
Definition st2_host (plugin : gmap string value) : Host :=
  linux_host 2221 plugin ∅ ∅ [] None (fun _ => []).

(** A view without settings of its own. *)
Definition empty_view : View := mkView ∅.

(** A resource index with two matches for one theme. *)
Definition bars_resources (pattern : string) : list string :=
  if String.eqb pattern "Bars.gitgutter-theme" then
    ["Packages/GitGutter/themes/Bars/Bars.gitgutter-theme";
     "Packages/User/Bars/Bars.gitgutter-theme"]
  else [].

(** Dialogs the process may still show: one until the flag is set. *)
Definition pending (s : Sys) : nat :=
  if _git_binary_path_error_shown (self s) then 0%nat else 1%nat.

(** Shown and still possible dialogs together never grow. *)
Definition within_budget (s s' : Sys) : Prop :=
  (dialogs_shown s' + pending s' <= dialogs_shown s + pending s)%nat.

(** Lines 94-123 of [load_settings]: everything before the check. *)
Definition git_binary_resolution : M unit :=
  update_self (set__settings (Some GitGutter_sublime_settings)) ;;;
  update_self (set__user_settings (Some Preferences_sublime_settings)) ;;;
  configure_git_binary ;;;
  locate_git_binary.

(** What the resolution does not touch: the bound stores, the flag and the
    event log. *)
Record quiet (s s' : Sys) : Prop := mkQuiet {
  quiet_stores : keeps_stores s s';
  quiet_flag :
    _git_binary_path_error_shown (self s')
    = _git_binary_path_error_shown (self s);
  quiet_events : events (host s') = events (host s)
}.

(** The width that is configured for a view: the view's own
    'git_gutter_show_in_minimap' unless it is unset ([None]); otherwise the
    plugin's 'show_in_minimap', and 1 when the plugin has none. *)
Definition configured_width (h : Host) (view : View) : value :=
  match store_get (view_settings view) "git_gutter_show_in_minimap" VNone with
  | VNone => store_get (plugin_file h) "show_in_minimap" (VInt 1)
  | width => width
  end.

(** Whether reading the width has to load the settings first: the view has
    no width of its own and the test of [get] calls for a load. *)
Definition width_needs_load (s : Sys) (view : View) : bool :=
  match store_get (view_settings view) "git_gutter_show_in_minimap" VNone with
  | VNone => needs_load s "show_in_minimap"
  | _ => false
  end.

(** Line 99-101: the user's value, else the plugin's. *)
Definition configured_git_binary (h : Host) : value :=
  py_or (store_get (preferences_file h) "git_binary" VNone)
        (store_get (plugin_file h) "git_binary" VNone).

(** The host with 'git_binary' in neither settings file. *)
Definition without_git_binary (h : Host) : Host :=
  set_file_store
    (set_file_store h GitGutter_sublime_settings
       (delete "git_binary" (plugin_file h)))
    Preferences_sublime_settings (delete "git_binary" (preferences_file h)).

(** Two resolvers that differ at most in an unresolved path. *)
Definition same_but_path (r r' : Settings) : Prop :=
  set_git_binary_path VNone r = set_git_binary_path VNone r' /\
  (git_binary_path r = git_binary_path r' \/
   truthy (git_binary_path r) = false /\
   truthy (git_binary_path r') = false).

(** The resolver after lines 94-96: both stores bound. *)
Definition bound (r : Settings) : Settings :=
  set__user_settings (Some Preferences_sublime_settings)
    (set__settings (Some GitGutter_sublime_settings) r).

(** The executable path is as before. *)
Definition keeps_path (s s' : Sys) : Prop :=
  git_binary_path (self s') = git_binary_path (self s).

(** ** The two settings commands *)

(** A command handed to [sublime.run_command], the one effect of the
    [run] methods of the two command classes. *)
Record command : Type := mkCommand {
  cmd_name : string;
  cmd_args : gmap string value
}.

(** [s.replace(old, new)] for a non-empty [old]: occurrences are replaced
    from the left and do not overlap. [skip] counts the characters of the
    occurrence just replaced that are still to be passed. *)
Fixpoint replace_from (old new : string) (skip : nat) (s : string) : string :=
  match s with
  | EmptyString => EmptyString
  | String c rest =>
      match skip with
      | S k => replace_from old new k rest
      | O =>
          if String.prefix old s
          then new ++ replace_from old new (String.length old - 1) rest
          else String c (replace_from old new 0 rest)
      end
  end.

Definition str_replace (old new s : string) : string :=
  replace_from old new 0 s.

(** The dict literal of lines 27-31. *)
Definition platform_names : gmap string string :=
  {[ "osx" := "OSX"; "windows" := "Windows"; "linux" := "Linux" ]}.

(** [GitGutterOpenFileCommand.run(file)]: the command it runs, or the
    [KeyError] of the dict lookup. *)
Definition open_file_run (h : Host) (file : string) : result command :=
  match platform_names !! sublime_platform h with
  | None => Raise (KeyError (sublime_platform h))
  | Some platform_name =>
      Ok (mkCommand "open_file"
            {[ "file" :=
                 VStr (str_replace "${platform}" platform_name file) ]})
  end.

(** [GitGutterOpenFileCommand.is_visible()]. *)
Definition open_file_is_visible (h : Host) : bool := Z.ltb (STVER h) 3124.

(** [GitGutterEditSettingsCommand.run] on its keyword arguments. *)
Definition edit_settings_run (kwargs : gmap string value) : command :=
  mkCommand "edit_settings" kwargs.

(** [GitGutterEditSettingsCommand.is_visible()]. *)
Definition edit_settings_is_visible (h : Host) : bool :=
  Z.leb 3124 (STVER h).

(** [plugin_loaded()]. *)
Definition plugin_loaded : M unit := load_settings.

(** ** Notions of the further properties *)

(** Both settings files are as before. *)
Definition files_kept (s s' : Sys) : Prop :=
  plugin_file (host s') = plugin_file (host s) /\
  preferences_file (host s') = preferences_file (host s).

(** The calls that may change a settings file: [set], and the user or the
    host editing the files. *)
Definition writes_settings (c : call) : bool :=
  match c with
  | CallSet _ _ | HostChange _ => true
  | _ => false
  end.

(** The override of one work-tree is as before. *)
Definition override_kept (root : string) (s s' : Sys) : Prop :=
  _compare_against_mapping (self s') !! root
  = _compare_against_mapping (self s) !! root.

(** The calls that assign the override of [root]. *)
Definition overrides (root : string) (c : call) : bool :=
  match c with
  | CallSetCompareAgainst git_tree _ => String.eqb git_tree root
  | _ => false
  end.

(** What [__init__] derives from the install directory is as before. *)
Definition package_kept (s s' : Sys) : Prop :=
  package_name (self s') = package_name (self s) /\
  _builtin_theme_path (self s') = _builtin_theme_path (self s).

(** The path lines 99-107 assign, before any expansion: the configured
    value, a per-platform dict resolved. *)
Definition configured_path (h : Host) : value :=
  match configured_git_binary h with
  | VDict d =>
      if truthy (dict_get d (sublime_platform h))
      then dict_get d (sublime_platform h)
      else dict_get d "default"
  | v => v
  end.

(** Lines 117-120: the file name searched, the candidates in the order of
    PATH, and the test a candidate has to pass. *)
Definition git_exe (h : Host) : string :=
  if String.eqb (sublime_platform h) "windows" then "git.exe" else "git".

Definition path_candidates (h : Host) (path_var : string) : list string :=
  map (fun folder => os_path_join h (strip_char double_quote folder)
                       (git_exe h))
      (split_on (os_pathsep h) path_var).

Definition is_executable_file (h : Host) (path : string) : bool :=
  os_path_isfile h path && os_access_X_OK h path.

(** The executable path and its cache are as before. *)
Definition keeps_executable (s s' : Sys) : Prop :=
  git_binary_path (self s') = git_binary_path (self s) /\
  _git_binary_path_fallback (self s')
  = _git_binary_path_fallback (self s).

(** A cached executable is not replaced. *)
Definition keeps_cached (s s' : Sys) : Prop :=
  truthy (_git_binary_path_fallback (self s)) = true ->
  _git_binary_path_fallback (self s')
  = _git_binary_path_fallback (self s).

(** [c in s]. *)
Fixpoint contains_char (c : ascii) (s : string) : bool :=
  match s with
  | EmptyString => false
  | String a rest => Ascii.eqb a c || contains_char c rest
  end.

(** * Properties *)

Example posixpath_examples :
  posixpath.basename "Packages/GitGutter/themes/Default" = "Default" /\
  posixpath.dirname "Packages/Theme/Bars/Bars.gitgutter-theme"
    = "Packages/Theme/Bars" /\
  posixpath.splitext "Bars.gitgutter-theme" = ("Bars", ".gitgutter-theme") /\
  posixpath.join "/usr/bin" "git" = "/usr/bin/git" /\
  split_on (Ascii.ascii_of_nat 58) "/usr/bin::/bin"
    = ["/usr/bin"; EmptyString; "/bin"] /\
  strip_char "x" "xxaxbxx" = "axb".
Proof. repeat split; reflexivity. Qed.

(** ** Relations every step of a computation keeps *)

Section Preserves.

Variable R : Sys -> Sys -> Prop.
Hypothesis R_refl : forall s, R s s.
Hypothesis R_trans : forall s1 s2 s3, R s1 s2 -> R s2 s3 -> R s1 s3.

Lemma preserves_ret {A} (a : A) : preserves R (ret a).
Proof. intros s. apply R_refl. Qed.

Lemma preserves_raise {A} (e : exn) : preserves R (@raise A e).
Proof. intros s. apply R_refl. Qed.

Lemma preserves_read {A} (f : Sys -> A) : preserves R (read f).
Proof. intros s. apply R_refl. Qed.

Lemma preserves_lift_result {A} (r : result A) : preserves R (lift_result r).
Proof. intros s. apply R_refl. Qed.

Lemma preserves_bind {A B} (c : M A) (k : A -> M B) :
  preserves R c -> (forall a, preserves R (k a)) -> preserves R (bind c k).
Proof.
  intros Hc Hk s. unfold bind. specialize (Hc s).
  destruct (c s) as [s1 [a | e]]; simpl in *.
  - eapply R_trans; [exact Hc | apply Hk].
  - exact Hc.
Qed.

Lemma preserves_when (b : bool) (c : M unit) :
  preserves R c -> preserves R (when b c).
Proof. intros Hc. destruct b; simpl; [exact Hc | apply preserves_ret]. Qed.

Lemma preserves_obj_get o key dflt : preserves R (obj_get o key dflt).
Proof. destruct o; [apply preserves_read | apply preserves_raise]. Qed.

Lemma preserves_update_self (f : Settings -> Settings) :
  (forall h r, R (mkSys h r) (mkSys h (f r))) -> preserves R (update_self f).
Proof. intros Hf [h r]. apply Hf. Qed.

Lemma preserves_update_host (f : Host -> Host) :
  (forall h r, R (mkSys h r) (mkSys (f h) r)) -> preserves R (update_host f).
Proof. intros Hf [h r]. apply Hf. Qed.

End Preserves.

(** Walks through a computation, leaving the field and host updates. *)
Ltac preserves_walk :=
  repeat first
    [ assumption
    | apply preserves_ret; assumption
    | apply preserves_raise; assumption
    | apply preserves_read; assumption
    | apply preserves_lift_result; assumption
    | apply preserves_obj_get; assumption
    | apply preserves_when; [assumption |]
    | apply preserves_bind; [assumption | | intros ?]
    | match goal with
      | |- preserves _ (if ?b then _ else _) => destruct b
      | |- preserves _ (match ?x with _ => _ end) => destruct x
      end ].

(** ** What loading and reading leave alone *)

Lemma frame_refl s : frame s s.
Proof. split; reflexivity. Qed.

Lemma frame_trans s1 s2 s3 : frame s1 s2 -> frame s2 s3 -> frame s1 s3.
Proof. intros [] []. split; congruence. Qed.

Lemma frame_plugin_file s s' : frame s s' ->
  plugin_file (host s') = plugin_file (host s).
Proof.
  intros [He _ _ _ _]. apply (f_equal plugin_file) in He. exact He.
Qed.

Lemma frame_ST3 s s' : frame s s' -> ST3 (host s') = ST3 (host s).
Proof.
  intros [He _ _ _ _]. apply (f_equal sublime_version) in He.
  unfold ST3, STVER. simpl in He. now rewrite He.
Qed.

Lemma resource_searches_error_message h r msg :
  resource_searches (mkSys (log_event h (EvErrorMessage msg)) r)
  = resource_searches (mkSys h r).
Proof.
  unfold resource_searches. simpl. rewrite filter_app. simpl.
  now rewrite app_nil_r.
Qed.

Ltac frame_leaf :=
  intros; split; simpl;
  try reflexivity; try apply resource_searches_error_message.

Lemma configure_git_binary_frame : preserves frame configure_git_binary.
Proof.
  pose proof frame_refl. pose proof frame_trans.
  unfold configure_git_binary. preserves_walk;
    apply preserves_update_self; frame_leaf.
Qed.

Lemma search_PATH_frame : preserves frame search_PATH.
Proof.
  pose proof frame_refl. pose proof frame_trans.
  unfold search_PATH. preserves_walk;
    apply preserves_update_self; frame_leaf.
Qed.

Lemma locate_git_binary_frame : preserves frame locate_git_binary.
Proof.
  pose proof frame_refl. pose proof frame_trans.
  pose proof search_PATH_frame.
  unfold locate_git_binary. preserves_walk;
    apply preserves_update_self; frame_leaf.
Qed.

Lemma report_missing_git_binary_frame :
  preserves frame report_missing_git_binary.
Proof.
  pose proof frame_refl. pose proof frame_trans.
  unfold report_missing_git_binary. preserves_walk;
    first [apply preserves_update_self | apply preserves_update_host];
    frame_leaf.
Qed.

Lemma load_diff_switches_frame : preserves frame load_diff_switches.
Proof.
  pose proof frame_refl. pose proof frame_trans.
  unfold load_diff_switches. preserves_walk;
    apply preserves_update_self; frame_leaf.
Qed.

Lemma load_settings_frame : preserves frame load_settings.
Proof.
  pose proof frame_refl. pose proof frame_trans.
  pose proof configure_git_binary_frame.
  pose proof locate_git_binary_frame.
  pose proof report_missing_git_binary_frame.
  pose proof load_diff_switches_frame.
  unfold load_settings. preserves_walk;
    apply preserves_update_self; frame_leaf.
Qed.

Lemma get_frame key dflt : preserves frame (get key dflt).
Proof.
  pose proof frame_refl. pose proof frame_trans.
  pose proof load_settings_frame.
  unfold get. preserves_walk.
Qed.

(** ** The lazy load of the accessors *)

Lemma load_settings_unfold s :
  load_settings s =
  (configure_git_binary ;;; locate_git_binary ;;;
   report_missing_git_binary ;;; load_diff_switches)
    (mkSys (host s)
       (set__user_settings (Some Preferences_sublime_settings)
          (set__settings (Some GitGutter_sublime_settings) (self s)))).
Proof. reflexivity. Qed.

Lemma keeps_stores_refl s : keeps_stores s s.
Proof. split; reflexivity. Qed.

Lemma keeps_stores_trans s1 s2 s3 :
  keeps_stores s1 s2 -> keeps_stores s2 s3 -> keeps_stores s1 s3.
Proof. intros [] []. split; congruence. Qed.

Lemma load_settings_binds s :
  _settings (self (fst (load_settings s)))
  = Some GitGutter_sublime_settings.
Proof.
  pose proof keeps_stores_refl as Hr. pose proof keeps_stores_trans as Ht.
  rewrite load_settings_unfold.
  match goal with |- context [fst (?c ?s0)] =>
    assert (Hp : preserves keeps_stores c); [| destruct (Hp s0) as [-> _]]
  end; [| reflexivity].
  unfold configure_git_binary, locate_git_binary, search_PATH,
    report_missing_git_binary, load_diff_switches.
  preserves_walk;
    first [apply preserves_update_self | apply preserves_update_host];
    intros; split; reflexivity.
Qed.

Lemma get_no_load s key dflt f :
  _settings (self s) = Some f -> needs_load s key = false ->
  get key dflt s = (s, Ok (store_get (file_store (host s) f) key dflt)).
Proof.
  unfold needs_load. destruct s as [h r]. simpl. intros H1 H2.
  rewrite H1 in H2. cbv [get bind read when ret]. simpl.
  rewrite H1, H2. simpl. rewrite H1. reflexivity.
Qed.

Lemma get_after_load s key dflt s' :
  needs_load s key = true -> load_settings s = (s', Ok tt) ->
  get key dflt s = (s', Ok (store_get (plugin_file (host s)) key dflt)).
Proof.
  intros Hn Hl.
  pose proof (load_settings_binds s) as Hb.
  pose proof (frame_plugin_file _ _ (load_settings_frame s)) as Hp.
  rewrite Hl in Hb, Hp. simpl in Hb, Hp.
  unfold needs_load in Hn. unfold get, bind, read.
  destruct s as [h r]. simpl in *. rewrite Hn. simpl. rewrite Hl.
  rewrite Hb. simpl. unfold read. simpl. now rewrite Hp.
Qed.

Lemma get_load_raises s key dflt s' e :
  needs_load s key = true -> load_settings s = (s', Raise e) ->
  get key dflt s = (s', Raise e).
Proof.
  intros Hn Hl. unfold needs_load in Hn. unfold get, bind, read.
  destruct s as [h r]. simpl in *. rewrite Hn. simpl. now rewrite Hl.
Qed.

Lemma set_unbound s key v :
  _settings (self s) = None ->
  set key v s =
  match load_settings s with
  | (s', Ok _) =>
      (mkSys (set_file_store (host s') GitGutter_sublime_settings
                (<[key:=v]> (plugin_file (host s')))) (self s'), Ok VNone)
  | (s', Raise e) => (s', Raise e)
  end.
Proof.
  intros Hn. pose proof (load_settings_binds s) as Hb.
  unfold set, bind, read. destruct s as [h r]. simpl in *. rewrite Hn.
  simpl. destruct (load_settings (mkSys h r)) as [s' [[] | e]]; simpl in *.
  - rewrite Hb. reflexivity.
  - reflexivity.
Qed.

(** In every state a process reaches the plugin's store is unset or bound
    to the plugin's settings file. *)
Lemma rebinds_plugin_store_refl s : rebinds_plugin_store s s.
Proof. now left. Qed.

Lemma rebinds_plugin_store_trans s1 s2 s3 :
  rebinds_plugin_store s1 s2 -> rebinds_plugin_store s2 s3 ->
  rebinds_plugin_store s1 s3.
Proof.
  unfold rebinds_plugin_store.
  intros [H1 | H1] [H2 | H2]; [left | right ..]; congruence.
Qed.

Lemma exec_rebinds_plugin_store c s : rebinds_plugin_store s (exec c s).
Proof.
  pose proof rebinds_plugin_store_refl as Hr.
  pose proof rebinds_plugin_store_trans as Ht.
  assert (Hload : preserves rebinds_plugin_store load_settings).
  { intros s0. right. apply load_settings_binds. }
  assert (Hget : forall key dflt,
             preserves rebinds_plugin_store (get key dflt)).
  { intros key dflt. unfold get. preserves_walk. }
  destruct c; simpl; try apply Hload; try apply Hget; try (now left).
  - assert (Hp : preserves rebinds_plugin_store (set key v)).
    { unfold set, obj_set. preserves_walk. }
    apply Hp.
  - assert (Hp : preserves rebinds_plugin_store
                   (get_compare_against git_tree view)).
    { pose proof (Hget "compare_against" (VStr "HEAD")).
      unfold get_compare_against. preserves_walk. }
    apply Hp.
  - assert (Hp : preserves rebinds_plugin_store (get_show_in_minimap view)).
    { pose proof (Hget "show_in_minimap" (VInt 1)).
      unfold get_show_in_minimap. preserves_walk. }
    apply Hp.
  - assert (Hp : preserves rebinds_plugin_store theme_path).
    { pose proof (Hget "theme" (VStr "Default.gitgutter-theme")).
      unfold theme_path. preserves_walk. }
    apply Hp.
Qed.

Lemma run_plugin_store (h : Host) (pkg : string) (cs : list call) :
  let s := run cs (startup h pkg) in
  _settings (self s) = None \/
  _settings (self s) = Some GitGutter_sublime_settings.
Proof.
  cbv zeta.
  assert (H : forall s0, rebinds_plugin_store s0 (run cs s0)).
  { induction cs as [| c cs IH]; intros s0; simpl.
    - apply rebinds_plugin_store_refl.
    - eapply rebinds_plugin_store_trans;
        [apply exec_rebinds_plugin_store | apply IH]. }
  destruct (H (startup h pkg)) as [-> | ->]; auto.
Qed.

(** ** The compare target *)

(** The resolution of [get_compare_against] as the code runs it: the
    interactive override of the work-tree when there is one; otherwise the
    view's 'git_gutter_compare_against' when it is truthy; otherwise the
    plugin's 'compare_against', or "HEAD" when the plugin has none. The last
    two go through [get], and with it through a settings load when the store
    is unset or lacks the key; an exception of that load leaves the call. *)
Theorem get_compare_against_priority
    (s : Sys) (git_tree : string) (view : View) :
  let override := _compare_against_mapping (self s) !! git_tree in
  let compare :=
    store_get (view_settings view) "git_gutter_compare_against" VNone in
  let plugin := plugin_file (host s) !! "compare_against" in
  (forall target, override = Some target ->
     get_compare_against git_tree view s = (s, Ok target)) /\
  (override = None -> truthy compare = true ->
     get_compare_against git_tree view s = (s, Ok compare)) /\
  (override = None -> truthy compare = false ->
   _settings (self s) = Some GitGutter_sublime_settings ->
   forall v, plugin = Some v ->
     get_compare_against git_tree view s = (s, Ok v)) /\
  (override = None -> truthy compare = false ->
   needs_load s "compare_against" = true ->
   snd (load_settings s) = Ok tt ->
     get_compare_against git_tree view s
     = (fst (load_settings s), Ok (default (VStr "HEAD") plugin))) /\
  (override = None -> truthy compare = false ->
   needs_load s "compare_against" = true ->
   forall e, snd (load_settings s) = Raise e ->
     get_compare_against git_tree view s = (fst (load_settings s), Raise e)).
Proof.
  cbv zeta. unfold get_compare_against, bind, read; simpl.
  repeat split.
  - intros target ->. reflexivity.
  - intros -> ->. reflexivity.
  - intros -> -> Hb v Hv. simpl.
    rewrite (get_no_load s _ _ GitGutter_sublime_settings Hb).
    + simpl. unfold store_get. now rewrite Hv.
    + unfold needs_load. rewrite Hb. simpl. unfold store_has.
      rewrite Hv. rewrite bool_decide_eq_true_2; [reflexivity | eauto].
  - intros -> -> Hn Hl. simpl.
    destruct (load_settings s) as [s' r] eqn:E. simpl in Hl. subst r.
    now rewrite (get_after_load s _ _ s' Hn E).
  - intros -> -> Hn e Hl. simpl.
    destruct (load_settings s) as [s' r] eqn:E. simpl in Hl. subst r.
    now rewrite (get_load_raises s _ _ s' e Hn E).
Qed.

Lemma get_compare_against_priority_witness :
  let s := startup (git_host ∅) "GitGutter" in
  get_compare_against "/repo" empty_view s
  = (fst (load_settings s), Ok (VStr "HEAD")).
Proof.
  intros s.
  apply (get_compare_against_priority s "/repo" empty_view);
    vm_compute; reflexivity.
Defined.

(** C1: [get_compare_against] is to return the override of the work-tree,
    else the truthy view setting, else the plugin's 'compare_against', else
    "HEAD" - its docstring says it falls back to HEAD to avoid exceptions.
    The code breaks this where the fallback is needed and no git executable
    can be found: the call raises [ValueError] instead of returning "HEAD".
    So it is in a fresh process, and so it is after a [plugin_loaded] that
    found the configured executable, once the user has removed that
    setting. *)
Lemma get_compare_against_counterexample :
  let fresh := startup bare_host "GitGutter" in
  let loaded :=
    run [CallLoadSettings; HostChange bare_host]
      (startup (linux_host 3126 {[ "git_binary" := VStr "/usr/bin/git" ]}
                  ∅ ∅ [] None (fun _ => [])) "GitGutter") in
  (_compare_against_mapping (self fresh) !! "/repo" = None /\
   view_settings empty_view !! "git_gutter_compare_against" = None /\
   plugin_file (host fresh) !! "compare_against" = None /\
   snd (get_compare_against "/repo" empty_view fresh)
   = Raise (ValueError "Git binary not found.") /\
   snd (get_compare_against "/repo" empty_view fresh) <> Ok (VStr "HEAD")) /\
  (_compare_against_mapping (self loaded) !! "/repo" = None /\
   plugin_file (host loaded) !! "compare_against" = None /\
   _settings (self loaded) = Some GitGutter_sublime_settings /\
   git_binary_path (self loaded) = VStr "/usr/bin/git" /\
   snd (get_compare_against "/repo" empty_view loaded)
   = Raise (ValueError "Git binary not found.") /\
   snd (get_compare_against "/repo" empty_view loaded) <> Ok (VStr "HEAD")).
Proof. vm_compute. repeat split; discriminate. Qed.

(** C2: after [set_compare_against root target], [get_compare_against root]
    returns [target] for every view and whatever the host's settings files
    hold, also when they changed in between. *)
Theorem get_after_set_compare_against
    (s : Sys) (root : string) (target : value) (view : View) (h : Host) :
  let s1 := fst (set_compare_against root target s) in
  snd (set_compare_against root target s) = Ok tt /\
  get_compare_against root view s1 = (s1, Ok target) /\
  get_compare_against root view (mkSys h (self s1))
  = (mkSys h (self s1), Ok target).
Proof.
  cbv zeta. unfold get_compare_against, set_compare_against, bind, read,
    update_self. simpl. rewrite lookup_insert_eq. auto.
Qed.

(** ** The accessors on an unset store *)

(** C3, as the code has it: on an unset store [get] and [set] call
    [load_settings] first. When that load returns they delegate to the
    plugin's store, which the load has bound; when it raises, its
    exception leaves the accessor. *)
Theorem accessors_load_lazily
    (s : Sys) (key : string) (dflt v : value) :
  _settings (self s) = None ->
  (snd (load_settings s) = Ok tt ->
     let s' := fst (load_settings s) in
     get key dflt s = (s', Ok (store_get (plugin_file (host s)) key dflt)) /\
     set key v s =
       (mkSys (set_file_store (host s') GitGutter_sublime_settings
                 (<[key:=v]> (plugin_file (host s')))) (self s'),
        Ok VNone)) /\
  (forall e, snd (load_settings s) = Raise e ->
     get key dflt s = (fst (load_settings s), Raise e) /\
     set key v s = (fst (load_settings s), Raise e)).
Proof.
  intros Hn.
  assert (Hneed : needs_load s key = true).
  { unfold needs_load. now rewrite Hn. }
  pose proof (set_unbound s key v Hn) as Hset.
  destruct (load_settings s) as [s' r] eqn:E. simpl. split.
  - intros ->. split; [now apply get_after_load | exact Hset].
  - intros e ->. split; [now apply get_load_raises | exact Hset].
Qed.

Lemma accessors_load_lazily_witness :
  let s := startup (git_host {[ "theme" := VStr "Bars.gitgutter-theme" ]})
             "GitGutter" in
  get "theme" VNone s
  = (fst (load_settings s), Ok (VStr "Bars.gitgutter-theme")).
Proof.
  intros s.
  apply (accessors_load_lazily s "theme" VNone VNone); vm_compute; reflexivity.
Defined.

(** C3 as the specification words it fails in a fresh process without a
    git executable: both accessors raise on the unset store. *)
Lemma accessors_raise_counterexample :
  let s := startup bare_host "GitGutter" in
  _settings (self s) = None /\
  snd (get "theme" VNone s) = Raise (ValueError "Git binary not found.") /\
  snd (set "theme" (VStr "Bars.gitgutter-theme") s)
  = Raise (ValueError "Git binary not found.").
Proof. vm_compute. repeat split. Qed.

(** ** The not-found dialog *)

Lemma within_budget_refl s : within_budget s s.
Proof. unfold within_budget. lia. Qed.

Lemma within_budget_trans s1 s2 s3 :
  within_budget s1 s2 -> within_budget s2 s3 -> within_budget s1 s3.
Proof. unfold within_budget. lia. Qed.

Lemma dialogs_shown_find_resources h r pattern :
  dialogs_shown (mkSys (log_event h (EvFindResources pattern)) r)
  = dialogs_shown (mkSys h r).
Proof.
  unfold dialogs_shown. simpl. rewrite filter_app. simpl.
  now rewrite app_nil_r.
Qed.

Lemma dialogs_shown_error_message h r msg :
  dialogs_shown (mkSys (log_event h (EvErrorMessage msg)) r)
  = S (dialogs_shown (mkSys h r)).
Proof.
  unfold dialogs_shown. simpl. rewrite filter_app. simpl.
  rewrite length_app. simpl. lia.
Qed.

Lemma dialogs_shown_set_file_store h r f m :
  dialogs_shown (mkSys (set_file_store h f m) r) = dialogs_shown (mkSys h r).
Proof. destruct f; reflexivity. Qed.

Ltac budget_leaf :=
  intros; unfold within_budget;
  rewrite ?dialogs_shown_find_resources, ?dialogs_shown_set_file_store;
  unfold dialogs_shown, pending; simpl; lia.

Ltac budget_walk :=
  preserves_walk;
  first [apply preserves_update_self | apply preserves_update_host];
  budget_leaf.

(** The one place that shows the dialog sets the flag with it. *)
Lemma report_missing_git_binary_budget :
  preserves within_budget report_missing_git_binary.
Proof.
  intros [h r]. unfold report_missing_git_binary, bind, read, when. simpl.
  destruct (truthy (git_binary_path r)); simpl; [apply within_budget_refl |].
  destruct (_git_binary_path_error_shown r) eqn:E; simpl;
    [apply within_budget_refl |].
  unfold within_budget. rewrite dialogs_shown_error_message.
  unfold dialogs_shown, pending. simpl. rewrite E. lia.
Qed.

Lemma load_settings_budget : preserves within_budget load_settings.
Proof.
  pose proof within_budget_refl. pose proof within_budget_trans.
  pose proof report_missing_git_binary_budget.
  unfold load_settings, configure_git_binary, locate_git_binary,
    search_PATH, load_diff_switches.
  budget_walk.
Qed.

Lemma get_budget key dflt : preserves within_budget (get key dflt).
Proof.
  pose proof within_budget_refl. pose proof within_budget_trans.
  pose proof load_settings_budget.
  unfold get. preserves_walk.
Qed.

Lemma set_budget key v : preserves within_budget (set key v).
Proof.
  pose proof within_budget_refl. pose proof within_budget_trans.
  pose proof load_settings_budget.
  unfold set, obj_set. budget_walk.
Qed.

Lemma get_compare_against_budget t view :
  preserves within_budget (get_compare_against t view).
Proof.
  pose proof within_budget_refl. pose proof within_budget_trans.
  pose proof (get_budget "compare_against" (VStr "HEAD")).
  unfold get_compare_against. preserves_walk.
Qed.

Lemma set_compare_against_budget t target :
  preserves within_budget (set_compare_against t target).
Proof. apply preserves_update_self. budget_leaf. Qed.

Lemma get_show_in_minimap_budget view :
  preserves within_budget (get_show_in_minimap view).
Proof.
  pose proof within_budget_refl. pose proof within_budget_trans.
  pose proof (get_budget "show_in_minimap" (VInt 1)).
  unfold get_show_in_minimap. preserves_walk.
Qed.

Lemma theme_path_budget : preserves within_budget theme_path.
Proof.
  pose proof within_budget_refl. pose proof within_budget_trans.
  pose proof (get_budget "theme" (VStr "Default.gitgutter-theme")).
  unfold theme_path. budget_walk.
Qed.

Lemma exec_budget c s : within_budget s (exec c s).
Proof.
  destruct c; simpl.
  - apply load_settings_budget.
  - apply get_budget.
  - apply set_budget.
  - apply get_compare_against_budget.
  - apply set_compare_against_budget.
  - apply get_show_in_minimap_budget.
  - apply theme_path_budget.
  - unfold within_budget, dialogs_shown, pending. simpl. lia.
Qed.

Lemma run_budget cs : forall s, within_budget s (run cs s).
Proof.
  induction cs as [| c cs IH]; intros s; simpl.
  - apply within_budget_refl.
  - eapply within_budget_trans; [apply exec_budget | apply IH].
Qed.

(** C4: whatever calls a process makes on its resolver - [load_settings]
    itself or through an accessor, failing or not, with the host changing
    in between - it shows the not-found dialog at most once. *)
Theorem error_dialog_at_most_once (h : Host) (pkg : string) (cs : list call) :
  (dialogs_shown (run cs (startup h pkg))
   <= dialogs_shown (startup h pkg) + 1)%nat.
Proof.
  pose proof (run_budget cs (startup h pkg)) as Hb.
  unfold within_budget in Hb. unfold pending at 2 in Hb. simpl in Hb. lia.
Qed.

(** Three failing loads in a row: one dialog. *)
Example three_failed_loads :
  let s := run [CallLoadSettings; CallLoadSettings; CallLoadSettings]
             (startup bare_host "GitGutter") in
  dialogs_shown s = 1%nat /\
  truthy (git_binary_path (self s)) = false.
Proof. vm_compute. split; reflexivity. Qed.

(** ** A load that finds no executable *)

Lemma load_settings_split s :
  load_settings s =
  (git_binary_resolution ;;; report_missing_git_binary ;;;
   load_diff_switches) s.
Proof.
  unfold load_settings, git_binary_resolution, bind, update_self. simpl.
  destruct (configure_git_binary _) as [s1 [[] | e]]; [| reflexivity].
  destruct (locate_git_binary s1) as [s2 [[] | e]]; reflexivity.
Qed.

Lemma quiet_refl s : quiet s s.
Proof. split; [apply keeps_stores_refl | reflexivity | reflexivity]. Qed.

Lemma quiet_trans s1 s2 s3 : quiet s1 s2 -> quiet s2 s3 -> quiet s1 s3.
Proof.
  intros [] []. split; [eapply keeps_stores_trans; eauto | congruence ..].
Qed.

Lemma resolution_tail_quiet :
  preserves quiet (configure_git_binary ;;; locate_git_binary).
Proof.
  pose proof quiet_refl. pose proof quiet_trans.
  unfold configure_git_binary, locate_git_binary, search_PATH.
  preserves_walk; apply preserves_update_self;
    intros; split; unfold keeps_stores; simpl; auto.
Qed.

Lemma git_binary_resolution_post s :
  let s1 := fst (git_binary_resolution s) in
  _settings (self s1) = Some GitGutter_sublime_settings /\
  _git_binary_path_error_shown (self s1)
  = _git_binary_path_error_shown (self s) /\
  events (host s1) = events (host s).
Proof.
  cbv zeta.
  change (git_binary_resolution s) with
    ((configure_git_binary ;;; locate_git_binary)
       (mkSys (host s)
          (set__user_settings (Some Preferences_sublime_settings)
             (set__settings (Some GitGutter_sublime_settings) (self s))))).
  match goal with |- context [fst (?c ?s0)] =>
    destruct (resolution_tail_quiet s0) as [[Hs _] Hf He]
  end.
  rewrite Hs, Hf, He. auto.
Qed.

Lemma git_binary_resolution_frame : preserves frame git_binary_resolution.
Proof.
  pose proof frame_refl. pose proof frame_trans.
  pose proof configure_git_binary_frame.
  pose proof locate_git_binary_frame.
  unfold git_binary_resolution. preserves_walk;
    apply preserves_update_self; frame_leaf.
Qed.

(** The three ways through lines 125-133. *)
Lemma report_resolved s :
  truthy (git_binary_path (self s)) = true ->
  report_missing_git_binary s = (s, Ok tt).
Proof.
  intros H. unfold report_missing_git_binary, bind, read. simpl.
  now rewrite H.
Qed.

Lemma report_first_failure s :
  truthy (git_binary_path (self s)) = false ->
  _git_binary_path_error_shown (self s) = false ->
  report_missing_git_binary s =
  (mkSys (log_event (host s) (EvErrorMessage not_found_msg))
     (set__git_binary_path_error_shown true (self s)),
   Raise (ValueError "Git binary not found.")).
Proof.
  intros H1 H2. unfold report_missing_git_binary, bind, read. simpl.
  rewrite H1, H2. reflexivity.
Qed.

Lemma report_later_failure s :
  truthy (git_binary_path (self s)) = false ->
  _git_binary_path_error_shown (self s) = true ->
  report_missing_git_binary s = (s, Ok tt).
Proof.
  intros H1 H2. unfold report_missing_git_binary, bind, read. simpl.
  rewrite H1, H2. reflexivity.
Qed.

(** Lines 135-147 on a bound store. *)
Lemma load_diff_switches_bound s :
  _settings (self s) = Some GitGutter_sublime_settings ->
  let w := store_get (plugin_file (host s)) "ignore_whitespace" VNone in
  let s' := fst (load_diff_switches s) in
  snd (load_diff_switches s) = Ok tt /\
  ignore_whitespace (self s') =
    VStr (if eq_str w "all" then "-w"
          else if eq_str w "eol" then "--ignore-space-at-eol"
          else EmptyString) /\
  git_binary_path (self s') = git_binary_path (self s) /\
  host s' = host s.
Proof.
  intros Hb. destruct s as [h r]. simpl in *.
  unfold load_diff_switches, bind, read. simpl. rewrite Hb. simpl.
  destruct (eq_str _ "all"); simpl;
    [| destruct (eq_str _ "eol"); simpl];
    destruct (truthy (store_get (plugin_file h) "patience" VNone));
    simpl; auto.
Qed.

(** C5, as the code has it: a [load_settings] that resolves no executable
    raises only while the flag is unset: it then sets the flag, shows the
    dialog and aborts with [ValueError]. Once the flag is set such a load
    shows nothing, does not raise and completes with the path left
    unresolved. *)
Theorem load_settings_raises_on_first_failure (s : Sys) :
  let s1 := fst (git_binary_resolution s) in
  snd (git_binary_resolution s) = Ok tt ->
  truthy (git_binary_path (self s1)) = false ->
  (_git_binary_path_error_shown (self s) = false ->
     load_settings s =
     (mkSys (log_event (host s1) (EvErrorMessage not_found_msg))
        (set__git_binary_path_error_shown true (self s1)),
      Raise (ValueError "Git binary not found."))) /\
  (_git_binary_path_error_shown (self s) = true ->
     snd (load_settings s) = Ok tt /\
     truthy (git_binary_path (self (fst (load_settings s)))) = false /\
     events (host (fst (load_settings s))) = events (host s)).
Proof.
  cbv zeta. intros Hok Hpath.
  destruct (git_binary_resolution_post s) as (Hb & Hf & He).
  assert (Hl : load_settings s =
               (report_missing_git_binary ;;; load_diff_switches)
                 (fst (git_binary_resolution s))).
  { rewrite load_settings_split. unfold bind.
    destruct (git_binary_resolution s) as [s1 r1]. simpl in *.
    now subst r1. }
  rewrite Hl. clear Hl Hok.
  set (s1 := fst (git_binary_resolution s)) in *. unfold bind.
  split; intros Hflag; rewrite Hflag in Hf.
  - now rewrite (report_first_failure s1 Hpath Hf).
  - rewrite (report_later_failure s1 Hpath Hf).
    destruct (load_diff_switches_bound s1 Hb) as (-> & _ & -> & ->).
    auto.
Qed.

Lemma load_settings_raises_on_first_failure_witness :
  let s := startup bare_host "GitGutter" in
  snd (load_settings s) = Raise (ValueError "Git binary not found.").
Proof.
  intros s.
  pose proof (load_settings_raises_on_first_failure s) as H.
  destruct H as [H _]; [vm_compute; reflexivity ..|].
  rewrite H; reflexivity.
Defined.

(** C5 as the specification words it fails at the second failing load of a
    process: nothing is resolved, and the load returns. *)
Lemma load_settings_second_failure_counterexample :
  let s := fst (load_settings (startup bare_host "GitGutter")) in
  snd (git_binary_resolution s) = Ok tt /\
  truthy (git_binary_path (self (fst (git_binary_resolution s)))) = false /\
  snd (load_settings s) = Ok tt /\
  truthy (git_binary_path (self (fst (load_settings s)))) = false.
Proof. vm_compute. repeat split. Qed.

(** ** The whitespace switch *)

Lemma load_settings_completes s :
  snd (load_settings s) = Ok tt ->
  exists s2,
    load_settings s = load_diff_switches s2 /\
    _settings (self s2) = Some GitGutter_sublime_settings /\
    plugin_file (host s2) = plugin_file (host s).
Proof.
  intros Hok.
  pose proof (git_binary_resolution_post s) as (Hb & _ & _).
  pose proof (frame_plugin_file _ _ (git_binary_resolution_frame s)) as Hp.
  rewrite load_settings_split in Hok |- *. unfold bind in Hok |- *.
  destruct (git_binary_resolution s) as [s1 [[] | e]]; simpl in *;
    [| discriminate].
  pose proof (report_missing_git_binary_frame s1) as Hfr.
  destruct (report_missing_git_binary s1) as [s2 [[] | e]] eqn:E;
    simpl in *; [| discriminate].
  exists s2. split; [reflexivity |]. split.
  - unfold report_missing_git_binary, bind, read, when in E. simpl in E.
    destruct (truthy (git_binary_path (self s1)));
      destruct (_git_binary_path_error_shown (self s1)); simpl in E;
      try discriminate; injection E as <-; exact Hb.
  - rewrite (frame_plugin_file _ _ Hfr). exact Hp.
Qed.

(** C8: after a [load_settings] that ran to its end, [ignore_whitespace]
    is '-w' when the plugin's 'ignore_whitespace' is "all",
    '--ignore-space-at-eol' when it is "eol", and the empty string for
    every other value and when the setting is absent. *)
Theorem load_settings_ignore_whitespace (s : Sys) :
  snd (load_settings s) = Ok tt ->
  let setting := plugin_file (host s) !! "ignore_whitespace" in
  let field := ignore_whitespace (self (fst (load_settings s))) in
  (setting = Some (VStr "all") -> field = VStr "-w") /\
  (setting = Some (VStr "eol") -> field = VStr "--ignore-space-at-eol") /\
  (setting <> Some (VStr "all") -> setting <> Some (VStr "eol") ->
   field = VStr EmptyString).
Proof.
  intros Hok. cbv zeta.
  destruct (load_settings_completes s Hok) as (s2 & -> & Hb & Hp).
  destruct (load_diff_switches_bound s2 Hb) as (_ & -> & _).
  rewrite Hp. unfold store_get.
  destruct (plugin_file (host s) !! "ignore_whitespace") as [v |];
    simpl; repeat split; try discriminate.
  - intros [= ->]. reflexivity.
  - intros [= ->]. reflexivity.
  - intros Hall Heol. destruct v as [| b | z | t | d]; try reflexivity.
    simpl. destruct (String.eqb_spec t "all") as [-> | _]; [congruence |].
    destruct (String.eqb_spec t "eol") as [-> | _]; [congruence |].
    reflexivity.
Qed.

Lemma load_settings_ignore_whitespace_witness :
  let s := startup (git_host {[ "ignore_whitespace" := VStr "eol" ]})
             "GitGutter" in
  ignore_whitespace (self (fst (load_settings s)))
  = VStr "--ignore-space-at-eol".
Proof.
  intros s.
  apply (load_settings_ignore_whitespace s); vm_compute; reflexivity.
Defined.

(** ** The minimap width *)

(** C10: on a host older than Sublime Text 3, [get_show_in_minimap] is 0
    for every view and leaves the state as it is: no settings are read and
    no load is triggered. *)
Theorem get_show_in_minimap_pre_ST3 (s : Sys) (view : View) :
  sublime_version (host s) < 3000 ->
  get_show_in_minimap view s = (s, Ok (VInt 0)).
Proof.
  intros Hv. unfold get_show_in_minimap, bind, read. simpl.
  unfold ST3, STVER. rewrite (proj2 (Z.leb_gt _ _) Hv). reflexivity.
Qed.

Lemma get_show_in_minimap_pre_ST3_witness :
  let view := mkView {[ "git_gutter_show_in_minimap" := VInt 3 ]} in
  let s := startup (st2_host {[ "show_in_minimap" := VInt 5 ]}) "GitGutter" in
  get_show_in_minimap view s = (s, Ok (VInt 0)).
Proof.
  intros view s. apply (get_show_in_minimap_pre_ST3 s view).
  vm_compute. reflexivity.
Defined.

(** What [get_show_in_minimap] does on Sublime Text 3 with the width it
    reads, whatever its type. *)
Lemma get_show_in_minimap_width s view :
  3000 <= sublime_version (host s) ->
  _settings (self s) = None \/
  _settings (self s) = Some GitGutter_sublime_settings ->
  (width_needs_load s view = false \/ snd (load_settings s) = Ok tt ->
   snd (get_show_in_minimap view s) =
   match zero_le (configured_width (host s) view) with
   | Ok nonneg =>
       Ok (if nonneg then configured_width (host s) view else VInt 100000)
   | Raise e => Raise e
   end) /\
  (width_needs_load s view = true ->
   forall e, snd (load_settings s) = Raise e ->
   snd (get_show_in_minimap view s) = Raise e).
Proof.
  intros Hv Hbound.
  unfold get_show_in_minimap, bind, read, width_needs_load, configured_width.
  simpl. unfold ST3, STVER. rewrite (proj2 (Z.leb_le _ _) Hv). simpl.
  destruct (store_get (view_settings view) "git_gutter_show_in_minimap"
              VNone) as [| b | z | t | d] eqn:Hview;
    try (split; [intros _; reflexivity | discriminate]).
  destruct (needs_load s "show_in_minimap") eqn:Hn.
  - destruct (load_settings s) as [s' [[] | e]] eqn:E; simpl; split.
    + intros _. rewrite (get_after_load s _ _ s' Hn E).
      unfold lift_result. simpl. destruct (zero_le _); reflexivity.
    + intros _ e He. discriminate.
    + intros [Hf | He]; discriminate.
    + intros _ e' [= <-]. now rewrite (get_load_raises s _ _ s' e Hn E).
  - split; [intros _ | discriminate].
    assert (Hb : _settings (self s) = Some GitGutter_sublime_settings).
    { destruct Hbound as [Hb | Hb]; [| exact Hb].
      unfold needs_load in Hn. now rewrite Hb in Hn. }
    rewrite (get_no_load s _ _ GitGutter_sublime_settings Hb Hn). simpl.
    unfold lift_result. simpl.
    assert (Hsame : store_get (plugin_file (host s)) "show_in_minimap" VNone
                    = store_get (plugin_file (host s)) "show_in_minimap"
                        (VInt 1)).
    { unfold needs_load in Hn. rewrite Hb in Hn. simpl in Hn.
      unfold store_has in Hn. apply negb_false_iff in Hn.
      apply bool_decide_eq_true_1 in Hn as [v Hv'].
      unfold store_get. now rewrite Hv'. }
    rewrite <- Hsame. destruct (zero_le _); reflexivity.
Qed.

(** C6, as the code has it: on Sublime Text 3, for an integer width
    configured on the view or, when the view has none, in the plugin
    settings (default 1), [get_show_in_minimap] returns 100000 when the
    width is negative and the width itself when it is zero or positive. A
    width of the plugin is read through [get]: when that read has to load
    the settings first and the load raises, its exception leaves the call
    instead of a width. *)
Theorem get_show_in_minimap_clamps (s : Sys) (view : View) (w : Z) :
  3000 <= sublime_version (host s) ->
  _settings (self s) = None \/
  _settings (self s) = Some GitGutter_sublime_settings ->
  configured_width (host s) view = VInt w ->
  (width_needs_load s view = false \/ snd (load_settings s) = Ok tt ->
   (w < 0 -> snd (get_show_in_minimap view s) = Ok (VInt 100000)) /\
   (0 <= w -> snd (get_show_in_minimap view s) = Ok (VInt w))) /\
  (width_needs_load s view = true ->
   forall e, snd (load_settings s) = Raise e ->
   snd (get_show_in_minimap view s) = Raise e).
Proof.
  intros Hv Hbound Hw.
  destruct (get_show_in_minimap_width s view Hv Hbound) as [Hok Hraise].
  split; [| exact Hraise].
  intros Hload. rewrite (Hok Hload), Hw. simpl. split; intros H.
  - now rewrite (proj2 (Z.leb_gt 0 w) H).
  - now rewrite (proj2 (Z.leb_le 0 w) H).
Qed.

Lemma get_show_in_minimap_clamps_witness :
  let loaded := startup (git_host {[ "show_in_minimap" := VInt (-5) ]})
                  "GitGutter" in
  let failing := startup (linux_host 3126 {[ "show_in_minimap" := VInt 3 ]}
                            ∅ ∅ [] None (fun _ => [])) "GitGutter" in
  snd (get_show_in_minimap empty_view loaded) = Ok (VInt 100000) /\
  snd (get_show_in_minimap
         (mkView {[ "git_gutter_show_in_minimap" := VInt 3 ]}) failing)
  = Ok (VInt 3) /\
  snd (get_show_in_minimap empty_view failing)
  = Raise (ValueError "Git binary not found.").
Proof.
  intros loaded failing. split; [| split].
  - destruct (get_show_in_minimap_clamps loaded empty_view (-5))
      as [Hok _];
      [vm_compute; discriminate | left; reflexivity | reflexivity |].
    apply Hok; [right; vm_compute; reflexivity | lia].
  - destruct (get_show_in_minimap_clamps failing
                (mkView {[ "git_gutter_show_in_minimap" := VInt 3 ]}) 3)
      as [Hok _];
      [vm_compute; discriminate | left; reflexivity | reflexivity |].
    apply Hok; [left; reflexivity | lia].
  - destruct (get_show_in_minimap_clamps failing empty_view 3)
      as [_ Hraise];
      [vm_compute; discriminate | left; reflexivity | reflexivity |].
    apply Hraise; [reflexivity | vm_compute; reflexivity].
Defined.

(** C6 as the specification words it fails at width zero, which the code
    returns unchanged. *)
Lemma get_show_in_minimap_zero_counterexample :
  let view := mkView {[ "git_gutter_show_in_minimap" := VInt 0 ]} in
  let s := startup bare_host "GitGutter" in
  3000 <= sublime_version (host s) /\
  configured_width (host s) view = VInt 0 /\
  snd (get_show_in_minimap view s) = Ok (VInt 0) /\
  snd (get_show_in_minimap view s) <> Ok (VInt 100000).
Proof. vm_compute. repeat split; discriminate. Qed.

(** ** The configured executable *)

Lemma bind_ok {A B} (c : M A) (k : A -> M B) s s1 a :
  c s = (s1, Ok a) -> bind c k s = k a s1.
Proof. intros H. unfold bind. now rewrite H. Qed.

Lemma bind_raise {A B} (c : M A) (k : A -> M B) s s1 e :
  c s = (s1, Raise e) -> bind c k s = (s1, Raise e).
Proof. intros H. unfold bind. now rewrite H. Qed.

Lemma same_but_path_refl r : same_but_path r r.
Proof. split; auto. Qed.

Lemma configure_git_binary_dict h r d :
  configured_git_binary h = VDict d ->
  configure_git_binary (mkSys h (bound r)) =
  (mkSys h
     (set_git_binary_path
        (if truthy (dict_get d (sublime_platform h))
         then dict_get d (sublime_platform h) else dict_get d "default")
        (bound r)), Ok tt).
Proof.
  unfold configured_git_binary. intros Hd.
  unfold configure_git_binary, bind, read, obj_get. simpl. rewrite Hd.
  unfold bind, read, update_self, when. simpl.
  destruct (truthy (dict_get d (sublime_platform h))); reflexivity.
Qed.

Lemma configure_git_binary_absent h r :
  configure_git_binary (mkSys (without_git_binary h) (bound r)) =
  (mkSys (without_git_binary h) (set_git_binary_path VNone (bound r)),
   Ok tt).
Proof.
  unfold configure_git_binary, bind, read, obj_get. simpl.
  unfold store_get. rewrite !lookup_delete_eq. reflexivity.
Qed.

(** Lines 109-123 on an unresolved path do not look at the settings
    files. *)
Lemma locate_unconfigured_agrees h r p p' :
  truthy p = false -> truthy p' = false ->
  let a := locate_git_binary (mkSys h (set_git_binary_path p r)) in
  let b := locate_git_binary
             (mkSys (without_git_binary h) (set_git_binary_path p' r)) in
  snd a = snd b /\
  host (fst a) = h /\ host (fst b) = without_git_binary h /\
  (self (fst a) = self (fst b) \/
   self (fst a) = set_git_binary_path p r /\
   self (fst b) = set_git_binary_path p' r).
Proof.
  intros Hp Hp'. cbv zeta.
  unfold locate_git_binary, search_PATH, bind, read, update_self. simpl.
  rewrite Hp, Hp'. simpl.
  destruct (truthy (_git_binary_path_fallback r)); simpl; [auto 6 |].
  unfold ST3, STVER. simpl.
  destruct (Z.leb 3000 (sublime_version h)); simpl; [auto 6 |].
  destruct (os_environ h !! "PATH") as [path_var |]; simpl; [| auto 6].
  destruct (List.find _ _); simpl; auto 6.
Qed.

(** The full effect of lines 135-147 on a bound store. *)
Lemma load_diff_switches_run h r :
  _settings r = Some GitGutter_sublime_settings ->
  load_diff_switches (mkSys h r) =
  (mkSys h
     (set_patience_switch
        (VStr (if truthy (store_get (plugin_file h) "patience" VNone)
               then "--patience" else EmptyString))
        (set_ignore_whitespace
           (VStr (let w := store_get (plugin_file h) "ignore_whitespace"
                             VNone in
                  if eq_str w "all" then "-w"
                  else if eq_str w "eol" then "--ignore-space-at-eol"
                  else EmptyString)) r)), Ok tt).
Proof.
  intros Hb. unfold load_diff_switches, bind, read. simpl. rewrite Hb.
  simpl.
  destruct (eq_str _ "all"); simpl;
    [| destruct (eq_str _ "eol"); simpl];
    destruct (truthy (store_get (plugin_file h) "patience" VNone));
    reflexivity.
Qed.

Lemma without_git_binary_switches h key :
  key <> "git_binary" ->
  store_get (plugin_file (without_git_binary h)) key VNone
  = store_get (plugin_file h) key VNone.
Proof.
  intros Hk. unfold store_get. simpl. now rewrite lookup_delete_ne.
Qed.

Lemma same_but_path_fields r r' :
  same_but_path r r' ->
  _settings r' = _settings r /\
  _git_binary_path_error_shown r' = _git_binary_path_error_shown r /\
  truthy (git_binary_path r') = truthy (git_binary_path r).
Proof.
  intros [Heq Hp]. destruct r, r'. simpl in *.
  injection Heq as -> -> -> -> -> -> -> -> -> ->.
  repeat split. destruct Hp as [-> | [-> ->]]; reflexivity.
Qed.

Lemma same_but_path_switches P W r r' :
  same_but_path r r' ->
  same_but_path (set_patience_switch P (set_ignore_whitespace W r))
    (set_patience_switch P (set_ignore_whitespace W r')).
Proof.
  intros [Heq Hp]. destruct r, r'. simpl in *.
  injection Heq as -> -> -> -> -> -> -> -> -> ->.
  split; [reflexivity | exact Hp].
Qed.

Lemma same_but_path_flag b r r' :
  same_but_path r r' ->
  same_but_path (set__git_binary_path_error_shown b r)
    (set__git_binary_path_error_shown b r').
Proof.
  intros [Heq Hp]. destruct r, r'. simpl in *.
  injection Heq as -> -> -> -> -> -> -> -> -> ->.
  split; [reflexivity | exact Hp].
Qed.

(** Lines 125-147 read no 'git_binary' either. *)
Lemma report_and_switches_agree h r r' :
  _settings r = Some GitGutter_sublime_settings ->
  same_but_path r r' ->
  let a := (report_missing_git_binary ;;; load_diff_switches) (mkSys h r) in
  let b := (report_missing_git_binary ;;; load_diff_switches)
             (mkSys (without_git_binary h) r') in
  snd a = snd b /\
  events (host (fst a)) = events (host (fst b)) /\
  same_but_path (self (fst a)) (self (fst b)).
Proof.
  intros Hb Hs. cbv zeta.
  destruct (same_but_path_fields r r' Hs) as (Hb' & Hf & Hp).
  rewrite Hb in Hb'.
  assert (Hrun : forall r0 r0',
    _settings r0 = Some GitGutter_sublime_settings ->
    _settings r0' = Some GitGutter_sublime_settings ->
    same_but_path r0 r0' ->
    snd (load_diff_switches (mkSys h r0))
    = snd (load_diff_switches (mkSys (without_git_binary h) r0')) /\
    events (host (fst (load_diff_switches (mkSys h r0))))
    = events (host (fst (load_diff_switches
                           (mkSys (without_git_binary h) r0')))) /\
    same_but_path (self (fst (load_diff_switches (mkSys h r0))))
      (self (fst (load_diff_switches (mkSys (without_git_binary h) r0'))))).
  { intros r0 r0' H0 H0' Hs0.
    rewrite (load_diff_switches_run h r0 H0).
    rewrite (load_diff_switches_run (without_git_binary h) r0' H0').
    rewrite !without_git_binary_switches by discriminate. simpl.
    repeat split; try reflexivity.
    - now apply same_but_path_switches.
    - destruct Hs0 as [_ Hq].
      destruct r0, r0'; simpl in *. exact Hq. }
  destruct (truthy (git_binary_path r)) eqn:Et.
  - rewrite (bind_ok _ _ _ _ _ (report_resolved (mkSys h r) Et)).
    rewrite (bind_ok _ _ _ _ _
               (report_resolved (mkSys (without_git_binary h) r') Hp)).
    apply Hrun; auto.
  - destruct (_git_binary_path_error_shown r) eqn:Ef.
    + rewrite (bind_ok _ _ _ _ _ (report_later_failure (mkSys h r) Et Ef)).
      rewrite (bind_ok _ _ _ _ _
                 (report_later_failure (mkSys (without_git_binary h) r')
                    Hp Hf)).
      apply Hrun; auto.
    + rewrite (bind_raise _ _ _ _ _
                 (report_first_failure (mkSys h r) Et Ef)).
      rewrite (bind_raise _ _ _ _ _
                 (report_first_failure (mkSys (without_git_binary h) r')
                    Hp Hf)).
      simpl. repeat split; try reflexivity.
      * apply (same_but_path_flag true r r' Hs).
      * destruct Hs as [_ Hq]. destruct r, r'; simpl in *. exact Hq.
Qed.

Lemma locate_git_binary_quiet : preserves quiet locate_git_binary.
Proof.
  pose proof quiet_refl. pose proof quiet_trans.
  unfold locate_git_binary, search_PATH.
  preserves_walk; apply preserves_update_self;
    intros; split; unfold keeps_stores; simpl; auto.
Qed.

Lemma locate_configured h r p :
  truthy (VStr p) = true ->
  locate_git_binary (mkSys h (set_git_binary_path (VStr p) r)) =
  (mkSys h (set_git_binary_path (VStr (os_path_expandvars h p)) r), Ok tt).
Proof.
  intros Hp. unfold locate_git_binary, bind, read. simpl in *.
  rewrite Hp. reflexivity.
Qed.

Lemma report_and_switches_keep_path :
  preserves keeps_path (report_missing_git_binary ;;; load_diff_switches).
Proof.
  assert (Hr : forall s, keeps_path s s) by reflexivity.
  assert (Ht : forall s1 s2 s3,
             keeps_path s1 s2 -> keeps_path s2 s3 -> keeps_path s1 s3).
  { unfold keeps_path. congruence. }
  unfold report_missing_git_binary, load_diff_switches.
  preserves_walk;
    first [apply preserves_update_self | apply preserves_update_host];
    reflexivity.
Qed.

(** C7: when the configured 'git_binary' (the user's value, else the
    plugin's) is a per-platform mapping, [load_settings] takes the entry of
    the current platform if it is truthy and the 'default' entry otherwise.
    A string chosen this way becomes the path with its environment
    variables expanded; when nothing truthy is chosen the load goes on as
    on a host whose settings files have no 'git_binary' at all: same
    outcome, same dialogs, same resolver up to the unresolved path. *)
Theorem git_binary_platform_mapping (s : Sys) (d : gmap string value) :
  configured_git_binary (host s) = VDict d ->
  let entry := dict_get d (sublime_platform (host s)) in
  let chosen := if truthy entry then entry else dict_get d "default" in
  let absent := mkSys (without_git_binary (host s)) (self s) in
  (forall p, chosen = VStr p -> truthy chosen = true ->
     let expanded := VStr (os_path_expandvars (host s) p) in
     git_binary_path (self (fst (load_settings s))) = expanded /\
     (truthy expanded = true -> snd (load_settings s) = Ok tt)) /\
  (truthy chosen = false ->
     snd (load_settings s) = snd (load_settings absent) /\
     events (host (fst (load_settings s)))
     = events (host (fst (load_settings absent))) /\
     same_but_path (self (fst (load_settings s)))
       (self (fst (load_settings absent)))).
Proof.
  intros Hd. cbv zeta. destruct s as [h r]. simpl in Hd |- *.
  rewrite !load_settings_unfold. simpl. fold (bound r).
  rewrite (bind_ok _ _ _ _ _ (configure_git_binary_dict h r d Hd)).
  rewrite (bind_ok _ _ _ _ _ (configure_git_binary_absent h r)).
  set (chosen := if truthy (dict_get d (sublime_platform h))
                 then dict_get d (sublime_platform h)
                 else dict_get d "default").
  split.
  - intros p Hc Ht. rewrite Hc in Ht |- *.
    rewrite (bind_ok _ _ _ _ _ (locate_configured h (bound r) p Ht)).
    split.
    + apply (report_and_switches_keep_path
               (mkSys h (set_git_binary_path
                           (VStr (os_path_expandvars h p)) (bound r)))).
    + intros He.
      rewrite (bind_ok _ _ _ _ _
                 (report_resolved
                    (mkSys h (set_git_binary_path
                                (VStr (os_path_expandvars h p)) (bound r)))
                    He)).
      now rewrite load_diff_switches_run.
  - intros Ht.
    destruct (locate_unconfigured_agrees h (bound r) chosen VNone Ht
                eq_refl) as (Ho & Ha & Hb & Hself).
    pose proof (locate_git_binary_quiet
                  (mkSys h (set_git_binary_path chosen (bound r))))
      as [[Hst _] _ _].
    destruct (locate_git_binary
                (mkSys h (set_git_binary_path chosen (bound r))))
      as [[ha ra] oa] eqn:Ea.
    destruct (locate_git_binary
                (mkSys (without_git_binary h)
                   (set_git_binary_path VNone (bound r))))
      as [[hb rb] ob] eqn:Eb.
    simpl in Ho, Ha, Hb, Hself, Hst. subst ob ha hb.
    assert (Hs : same_but_path ra rb).
    { destruct Hself as [-> | [-> ->]]; [apply same_but_path_refl |].
      split; [reflexivity | right; split; [exact Ht | reflexivity]]. }
    destruct oa as [[] | e];
      [rewrite (bind_ok _ _ _ _ _ Ea), (bind_ok _ _ _ _ _ Eb)
      |rewrite (bind_raise _ _ _ _ _ Ea), (bind_raise _ _ _ _ _ Eb)].
    + exact (report_and_switches_agree h ra rb Hst Hs).
    + simpl. auto.
Qed.

Lemma git_binary_platform_mapping_witness :
  let d : gmap string value :=
    {[ "windows" := VStr "C:/Git/bin/git.exe";
       "default" := VStr "/opt/git/bin/git" ]} in
  let s := startup (linux_host 3126 {[ "git_binary" := VDict d ]} ∅ ∅ []
                      None (fun _ => [])) "GitGutter" in
  git_binary_path (self (fst (load_settings s))) = VStr "/opt/git/bin/git" /\
  snd (load_settings s) = Ok tt.
Proof.
  intros d s.
  assert (Hd : configured_git_binary (host s) = VDict d)
    by (vm_compute; reflexivity).
  destruct (proj1 (git_binary_platform_mapping s d Hd)
              "/opt/git/bin/git" eq_refl eq_refl) as [Hp Hok].
  split; [exact Hp | apply Hok; reflexivity].
Defined.

(** ** The theme path *)

Lemma frame_host_functions s s' :
  frame s s' ->
  os_path_basename (host s') = os_path_basename (host s) /\
  os_path_dirname (host s') = os_path_dirname (host s) /\
  os_path_splitext (host s') = os_path_splitext (host s) /\
  sublime_find_resources (host s') = sublime_find_resources (host s).
Proof.
  intros [He _ _ _ _]. repeat split.
  - apply (f_equal os_path_basename) in He. exact He.
  - apply (f_equal os_path_dirname) in He. exact He.
  - apply (f_equal os_path_splitext) in He. exact He.
  - apply (f_equal sublime_find_resources) in He. exact He.
Qed.

Lemma resource_searches_find_resources h r pattern :
  resource_searches (mkSys (log_event h (EvFindResources pattern)) r)
  = S (resource_searches (mkSys h r)).
Proof.
  unfold resource_searches. simpl. rewrite filter_app. simpl.
  rewrite length_app. simpl. lia.
Qed.

(** C9, as the code has it: with [theme] the configured theme name that
    [get] returns, reading [theme_path] returns the cached path untouched,
    without a resource search, when [theme] is the basename of the cached
    path. Otherwise the cache is recomputed and returned: on Sublime Text 3
    as the directory of the last resource match for [theme], or the
    built-in default theme directory when nothing matches; on an older
    host, without a search, as the built-in themes directory joined with
    [theme] stripped of its extension. *)
Theorem theme_path_cached_or_recomputed (s : Sys) (theme : string) :
  let read_theme := get "theme" (VStr "Default.gitgutter-theme") s in
  snd read_theme = Ok (VStr theme) ->
  let h := host s in
  let cached := _theme_path (self s) in
  let after := fst (theme_path s) in
  (theme = os_path_basename h cached ->
     theme_path s = (fst read_theme, Ok (VStr cached)) /\
     _theme_path (self after) = cached /\
     resource_searches after = resource_searches s) /\
  (theme <> os_path_basename h cached -> 3000 <= sublime_version h ->
     let recomputed :=
       match last (sublime_find_resources h theme) with
       | Some m => os_path_dirname h m
       | None => default_theme_path (self s)
       end in
     snd (theme_path s) = Ok (VStr recomputed) /\
     _theme_path (self after) = recomputed /\
     resource_searches after = S (resource_searches s)) /\
  (theme <> os_path_basename h cached -> sublime_version h < 3000 ->
     let recomputed :=
       _builtin_theme_path (self s) ++ "/" ++ fst (os_path_splitext h theme) in
     snd (theme_path s) = Ok (VStr recomputed) /\
     _theme_path (self after) = recomputed /\
     resource_searches after = resource_searches s).
Proof.
  cbv zeta. intros Hget.
  pose proof (get_frame "theme" (VStr "Default.gitgutter-theme") s) as Hfr.
  destruct (get "theme" (VStr "Default.gitgutter-theme") s) as [s1 r] eqn:E.
  simpl in Hget, Hfr. subst r.
  destruct (frame_host_functions _ _ Hfr) as (Hbase & Hdir & Hsplit & Hfind).
  pose proof (frame_ST3 _ _ Hfr) as Hst3.
  destruct Hfr as [_ Hsearch _ Htheme Hbuiltin].
  unfold theme_path. rewrite (bind_ok _ _ _ _ _ E).
  unfold bind, read, when. simpl.
  rewrite Hbase, Htheme.
  split; [| split].
  - intros <-. rewrite String.eqb_refl. simpl. now rewrite Htheme.
  - intros Hne Hv. rewrite (proj2 (String.eqb_neq _ _) Hne). simpl.
    rewrite Hst3. unfold ST3, STVER. rewrite (proj2 (Z.leb_le _ _) Hv).
    simpl. unfold default_theme_path. rewrite Hfind, Hdir, Hbuiltin.
    repeat split. destruct s1 as [h1 r1]. simpl.
    rewrite resource_searches_find_resources. now f_equal.
  - intros Hne Hv. rewrite (proj2 (String.eqb_neq _ _) Hne). simpl.
    rewrite Hst3. unfold ST3, STVER. rewrite (proj2 (Z.leb_gt _ _) Hv).
    simpl. now rewrite Hsplit, Hbuiltin.
Qed.

Lemma theme_path_cached_or_recomputed_witness :
  let s := startup (linux_host 3126
                      {[ "theme" := VStr "Bars.gitgutter-theme" ]} ∅ ∅ []
                      (Some "/usr/bin/git") bars_resources) "GitGutter" in
  snd (theme_path s) = Ok (VStr "Packages/User/Bars").
Proof.
  intros s.
  assert (Hget : snd (get "theme" (VStr "Default.gitgutter-theme") s)
                 = Ok (VStr "Bars.gitgutter-theme"))
    by (vm_compute; reflexivity).
  destruct (theme_path_cached_or_recomputed s _ Hget) as (_ & Hst3 & _).
  destruct Hst3 as (Hv & _ & _);
    [vm_compute; discriminate | vm_compute; discriminate | exact Hv].
Defined.

(** C9 as the specification words it fails on a host older than Sublime
    Text 3: nothing matches the theme, yet the path is not the built-in
    default theme directory but the built-in directory of the theme's own
    name, and no resource search takes place. *)
Lemma theme_path_pre_ST3_counterexample :
  let s := run [CallLoadSettings]
             (startup (st2_host {[ "theme" := VStr "Bars.gitgutter-theme";
                                   "git_binary" := VStr "/usr/bin/git" ]})
                "GitGutter") in
  snd (get "theme" (VStr "Default.gitgutter-theme") s)
  = Ok (VStr "Bars.gitgutter-theme") /\
  "Bars.gitgutter-theme"
  <> os_path_basename (host s) (_theme_path (self s)) /\
  sublime_find_resources (host s) "Bars.gitgutter-theme" = [] /\
  default_theme_path (self s) = "../GitGutter/themes/Default" /\
  snd (theme_path s) = Ok (VStr "../GitGutter/themes/Bars") /\
  snd (theme_path s) <> Ok (VStr (default_theme_path (self s))) /\
  resource_searches (fst (theme_path s)) = 0%nat.
Proof. vm_compute. repeat split; discriminate. Qed.

(** * Further properties of the module *)

(** ** What the calls leave alone *)

Lemma files_kept_refl s : files_kept s s.
Proof. split; reflexivity. Qed.

Lemma files_kept_trans s1 s2 s3 :
  files_kept s1 s2 -> files_kept s2 s3 -> files_kept s1 s3.
Proof. intros [] []. split; congruence. Qed.

Lemma frame_files_kept s s' : frame s s' -> files_kept s s'.
Proof.
  intros [He _ _ _ _]. split.
  - apply (f_equal plugin_file) in He. exact He.
  - apply (f_equal preferences_file) in He. exact He.
Qed.

Lemma get_files_kept key dflt : preserves files_kept (get key dflt).
Proof. intros s. apply frame_files_kept, get_frame. Qed.

(** X1: the resolver writes a settings file only through [set]: no other
    call of a process - a load, a read accessor, the compare-target or
    minimap or theme lookups, an override - changes the plugin's or the
    user's settings file, whether it returns or raises. *)
Theorem only_set_writes_settings (c : call) (s : Sys) :
  writes_settings c = false ->
  plugin_file (host (exec c s)) = plugin_file (host s) /\
  preferences_file (host (exec c s)) = preferences_file (host s).
Proof.
  pose proof files_kept_refl as Hr. pose proof files_kept_trans as Ht.
  intros Hc. change (files_kept s (exec c s)).
  destruct c; simpl in *; try discriminate.
  - apply frame_files_kept, load_settings_frame.
  - apply get_files_kept.
  - pose proof (get_files_kept "compare_against" (VStr "HEAD")).
    assert (Hp : preserves files_kept (get_compare_against git_tree view)).
    { unfold get_compare_against. preserves_walk. }
    apply Hp.
  - split; reflexivity.
  - pose proof (get_files_kept "show_in_minimap" (VInt 1)).
    assert (Hp : preserves files_kept (get_show_in_minimap view)).
    { unfold get_show_in_minimap. preserves_walk. }
    apply Hp.
  - pose proof (get_files_kept "theme" (VStr "Default.gitgutter-theme")).
    assert (Hp : preserves files_kept theme_path).
    { unfold theme_path. preserves_walk. }
    apply Hp.
Qed.

Lemma only_set_writes_settings_witness :
  let s := startup (git_host {[ "theme" := VStr "Bars.gitgutter-theme" ]})
             "GitGutter" in
  plugin_file (host (exec CallThemePath s)) = plugin_file (host s).
Proof.
  intros s. apply (only_set_writes_settings CallThemePath s). reflexivity.
Defined.

(** ** The overrides between calls *)

Lemma override_kept_refl root s : override_kept root s s.
Proof. reflexivity. Qed.

Lemma override_kept_trans root s1 s2 s3 :
  override_kept root s1 s2 -> override_kept root s2 s3 ->
  override_kept root s1 s3.
Proof. unfold override_kept. congruence. Qed.

Lemma frame_override_kept root s s' : frame s s' -> override_kept root s s'.
Proof. intros [_ _ Hm _ _]. unfold override_kept. now rewrite Hm. Qed.

Lemma exec_override_kept root c s :
  overrides root c = false -> override_kept root s (exec c s).
Proof.
  pose proof (override_kept_refl root) as Hr.
  pose proof (override_kept_trans root) as Ht.
  assert (Hget : forall key dflt,
             preserves (override_kept root) (get key dflt)).
  { intros key dflt s0. apply frame_override_kept, get_frame. }
  intros Hc. destruct c; simpl in *.
  - apply frame_override_kept, load_settings_frame.
  - apply Hget.
  - assert (Hp : preserves (override_kept root) (set key v)).
    { pose proof (fun s0 => frame_override_kept root _ _
                              (load_settings_frame s0)).
      unfold set, obj_set. preserves_walk. }
    apply Hp.
  - assert (Hp : preserves (override_kept root)
                   (get_compare_against git_tree view)).
    { pose proof (Hget "compare_against" (VStr "HEAD")).
      unfold get_compare_against. preserves_walk. }
    apply Hp.
  - unfold override_kept. simpl. apply lookup_insert_ne.
    intros ->. now rewrite String.eqb_refl in Hc.
  - assert (Hp : preserves (override_kept root) (get_show_in_minimap view)).
    { pose proof (Hget "show_in_minimap" (VInt 1)).
      unfold get_show_in_minimap. preserves_walk. }
    apply Hp.
  - assert (Hp : preserves (override_kept root) theme_path).
    { pose proof (Hget "theme" (VStr "Default.gitgutter-theme")).
      unfold theme_path. preserves_walk. }
    apply Hp.
  - reflexivity.
Qed.

Lemma run_override_kept root cs :
  forallb (fun c => negb (overrides root c)) cs = true ->
  forall s, override_kept root s (run cs s).
Proof.
  induction cs as [| c cs IH]; simpl; intros Hcs s.
  - reflexivity.
  - apply andb_prop in Hcs as [Hc Hcs].
    eapply override_kept_trans; [| apply IH, Hcs].
    apply exec_override_kept. now destruct (overrides root c).
Qed.

(** X2: an interactive override lasts: after [set_compare_against root
    target], whatever the process goes on to do - loads, failing or not,
    reads and writes of settings, theme and minimap lookups, changes of the
    host, overrides of other work-trees - [get_compare_against root] still
    returns [target], as long as no later call assigns the override of
    [root] itself. *)
Theorem override_lasts
    (s : Sys) (root : string) (target : value) (cs : list call)
    (view : View) :
  forallb (fun c => negb (overrides root c)) cs = true ->
  let s' := run cs (fst (set_compare_against root target s)) in
  get_compare_against root view s' = (s', Ok target).
Proof.
  intros Hcs. cbv zeta.
  pose proof (run_override_kept root cs Hcs
                (fst (set_compare_against root target s))) as Hk.
  unfold override_kept in Hk. simpl in Hk. rewrite lookup_insert_eq in Hk.
  unfold get_compare_against, bind, read. simpl. now rewrite Hk.
Qed.

Lemma override_lasts_witness :
  let cs := [CallLoadSettings; CallSetCompareAgainst "/other" (VStr "dev");
             HostChange bare_host; CallThemePath; CallLoadSettings] in
  let s' := run cs (fst (set_compare_against "/repo" (VStr "main")
                           (startup bare_host "GitGutter"))) in
  get_compare_against "/repo" empty_view s' = (s', Ok (VStr "main")).
Proof.
  intros cs s'.
  apply (override_lasts (startup bare_host "GitGutter") "/repo" (VStr "main")
           cs empty_view).
  reflexivity.
Defined.

(** ** The package name *)

Lemma package_kept_refl s : package_kept s s.
Proof. split; reflexivity. Qed.

Lemma package_kept_trans s1 s2 s3 :
  package_kept s1 s2 -> package_kept s2 s3 -> package_kept s1 s3.
Proof. intros [] []. split; congruence. Qed.

Lemma exec_package_kept c s : package_kept s (exec c s).
Proof.
  pose proof package_kept_refl as Hr. pose proof package_kept_trans as Ht.
  assert (Hload : preserves package_kept load_settings).
  { unfold load_settings, configure_git_binary, locate_git_binary,
      search_PATH, report_missing_git_binary, load_diff_switches.
    preserves_walk. }
  assert (Hget : forall key dflt, preserves package_kept (get key dflt)).
  { intros key dflt. unfold get. preserves_walk. }
  destruct c; simpl.
  - apply Hload.
  - apply Hget.
  - assert (Hp : preserves package_kept (set key v)).
    { unfold set, obj_set. preserves_walk. }
    apply Hp.
  - assert (Hp : preserves package_kept (get_compare_against git_tree view)).
    { pose proof (Hget "compare_against" (VStr "HEAD")).
      unfold get_compare_against. preserves_walk. }
    apply Hp.
  - split; reflexivity.
  - assert (Hp : preserves package_kept (get_show_in_minimap view)).
    { pose proof (Hget "show_in_minimap" (VInt 1)).
      unfold get_show_in_minimap. preserves_walk. }
    apply Hp.
  - assert (Hp : preserves package_kept theme_path).
    { pose proof (Hget "theme" (VStr "Default.gitgutter-theme")).
      unfold theme_path. preserves_walk. }
    apply Hp.
  - split; reflexivity.
Qed.

Lemma string_append_assoc (a b c : string) :
  ((a ++ b) ++ c = a ++ (b ++ c))%string.
Proof.
  induction a as [| x a IH]; [reflexivity |].
  change (String x ((a ++ b) ++ c) = String x (a ++ (b ++ c)))%string.
  now f_equal.
Qed.

(** X3: what [__init__] derives from the install directory never changes
    afterwards: after any calls of a process the package name is the one
    given at construction, and [default_theme_path] is
    'Packages/<name>/themes/Default' on Sublime Text 3 and
    '../<name>/themes/Default' before. *)
Theorem package_paths_are_constant (h : Host) (pkg : string) (cs : list call) :
  let r := self (run cs (startup h pkg)) in
  package_name r = pkg /\
  default_theme_path r =
    (if Z.leb 3000 (sublime_version h) then "Packages" else "..")
    ++ "/" ++ pkg ++ "/themes/Default".
Proof.
  cbv zeta.
  assert (H : forall s0, package_kept s0 (run cs s0)).
  { induction cs as [| c cs IH]; intros s0; simpl.
    - apply package_kept_refl.
    - eapply package_kept_trans; [apply exec_package_kept | apply IH]. }
  destruct (H (startup h pkg)) as [Hn Hb].
  unfold default_theme_path. rewrite Hn, Hb. simpl. split; [reflexivity |].
  unfold ST3, STVER.
  destruct (Z.leb 3000 (sublime_version h));
    rewrite !string_append_assoc; reflexivity.
Qed.

(** ** The steps of a load, one by one *)

Lemma configure_git_binary_run h r :
  configure_git_binary (mkSys h (bound r)) =
  (mkSys h (set_git_binary_path (configured_path h) (bound r)), Ok tt).
Proof.
  unfold configured_path.
  destruct (configured_git_binary h) as [| b | z | p | d] eqn:E;
    try (unfold configured_git_binary in E;
         unfold configure_git_binary, bind, read, obj_get; simpl;
         rewrite E; reflexivity).
  apply configure_git_binary_dict, E.
Qed.

Lemma locate_uses_fallback h r p :
  truthy p = false -> truthy (_git_binary_path_fallback r) = true ->
  locate_git_binary (mkSys h (set_git_binary_path p r)) =
  (mkSys h (set_git_binary_path (_git_binary_path_fallback r) r), Ok tt).
Proof.
  intros Hp Hf. unfold locate_git_binary, bind, read. simpl.
  rewrite Hp, Hf. reflexivity.
Qed.

Lemma locate_asks_which h r p :
  truthy p = false -> truthy (_git_binary_path_fallback r) = false ->
  ST3 h = true ->
  locate_git_binary (mkSys h (set_git_binary_path p r)) =
  (mkSys h
     (set__git_binary_path_fallback (opt_value (shutil_which_git h))
        (set_git_binary_path (opt_value (shutil_which_git h)) r)), Ok tt).
Proof.
  intros Hp Hf Hv. unfold locate_git_binary, bind, read. simpl.
  rewrite Hp, Hf, Hv. reflexivity.
Qed.

Lemma locate_searches_PATH h r p :
  truthy p = false -> truthy (_git_binary_path_fallback r) = false ->
  ST3 h = false ->
  locate_git_binary (mkSys h (set_git_binary_path p r)) =
  match os_environ h !! "PATH" with
  | None => (mkSys h (set_git_binary_path p r), Raise (KeyError "PATH"))
  | Some path_var =>
      match List.find (is_executable_file h) (path_candidates h path_var) with
      | Some path =>
          (mkSys h (set__git_binary_path_fallback (VStr path)
                      (set_git_binary_path (VStr path) r)), Ok tt)
      | None => (mkSys h (set_git_binary_path p r), Ok tt)
      end
  end.
Proof.
  intros Hp Hf Hv. unfold locate_git_binary, search_PATH, bind, read. simpl.
  rewrite Hp, Hf, Hv. simpl.
  destruct (os_environ h !! "PATH") as [path_var |]; [| reflexivity].
  unfold path_candidates, git_exe, is_executable_file.
  destruct (List.find _ _); reflexivity.
Qed.

Lemma report_and_switches_keep_executable :
  preserves keeps_executable
    (report_missing_git_binary ;;; load_diff_switches).
Proof.
  assert (Hr : forall s, keeps_executable s s) by (split; reflexivity).
  assert (Ht : forall s1 s2 s3, keeps_executable s1 s2 ->
                 keeps_executable s2 s3 -> keeps_executable s1 s3).
  { intros s1 s2 s3 [] []. split; congruence. }
  unfold report_missing_git_binary, load_diff_switches. preserves_walk.
Qed.

Lemma load_settings_from_located s s2 :
  (configure_git_binary ;;; locate_git_binary)
    (mkSys (host s) (bound (self s))) = (s2, Ok tt) ->
  load_settings s =
  (report_missing_git_binary ;;; load_diff_switches) s2.
Proof.
  intros H. rewrite load_settings_unfold. fold (bound (self s)).
  unfold bind in H |- *.
  destruct (configure_git_binary _) as [s1 [[] | e]]; [| discriminate].
  destruct (locate_git_binary s1) as [s2' [[] | e]]; [| discriminate].
  now injection H as ->.
Qed.

Lemma resolved_load_completes h r :
  _settings r = Some GitGutter_sublime_settings ->
  truthy (git_binary_path r) = true ->
  let out := (report_missing_git_binary ;;; load_diff_switches)
               (mkSys h r) in
  snd out = Ok tt /\ host (fst out) = h.
Proof.
  intros Hb Hp. cbv zeta.
  rewrite (bind_ok _ _ _ _ _ (report_resolved (mkSys h r) Hp)).
  rewrite (load_diff_switches_run h r Hb). auto.
Qed.

(** ** The cache of the executable found *)

(** X4: on Sublime Text 3, when the settings configure no usable path and
    nothing is cached yet, a load takes what [shutil.which] finds, stores
    it both as the executable path and in the cache, completes, and shows
    no dialog. *)
Theorem which_result_is_cached (s : Sys) (p : string) :
  3000 <= sublime_version (host s) ->
  truthy (configured_path (host s)) = false ->
  truthy (_git_binary_path_fallback (self s)) = false ->
  shutil_which_git (host s) = Some p ->
  p <> EmptyString ->
  let s' := fst (load_settings s) in
  snd (load_settings s) = Ok tt /\
  git_binary_path (self s') = VStr p /\
  _git_binary_path_fallback (self s') = VStr p /\
  events (host s') = events (host s).
Proof.
  intros Hv Hc Hf Hw Hp. cbv zeta. destruct s as [h r]. simpl in *.
  assert (Hst : ST3 h = true) by (apply Z.leb_le; exact Hv).
  assert (Hloc :
    (configure_git_binary ;;; locate_git_binary) (mkSys h (bound r)) =
    (mkSys h (set__git_binary_path_fallback (VStr p)
                (set_git_binary_path (VStr p) (bound r))), Ok tt)).
  { rewrite (bind_ok _ _ _ _ _ (configure_git_binary_run h r)).
    rewrite (locate_asks_which h (bound r) _ Hc Hf Hst), Hw. reflexivity. }
  rewrite (load_settings_from_located (mkSys h r) _ Hloc).
  assert (Ht : truthy (VStr p) = true).
  { simpl. now rewrite (proj2 (String.eqb_neq _ _) Hp). }
  match goal with |- context [_ {| host := h; self := ?r1 |}] =>
    destruct (resolved_load_completes h r1 eq_refl Ht) as [Hok Hh];
    destruct (report_and_switches_keep_executable (mkSys h r1)) as [Hp1 Hf1]
  end.
  rewrite Hok, Hp1, Hf1, Hh. auto.
Qed.

Lemma which_result_is_cached_witness :
  let s := startup (git_host ∅) "GitGutter" in
  git_binary_path (self (fst (load_settings s))) = VStr "/usr/bin/git" /\
  _git_binary_path_fallback (self (fst (load_settings s)))
  = VStr "/usr/bin/git".
Proof.
  intros s.
  destruct (which_result_is_cached s "/usr/bin/git")
    as (_ & Hp & Hf & _);
    [vm_compute; discriminate | reflexivity | reflexivity | reflexivity
    | discriminate | auto].
Defined.

(** X5: a cached executable is used wherever the settings configure no
    usable path: on any host - no search, no [which], no [PATH] needed - the
    load completes with the cached path as the executable path, keeps the
    cache and shows no dialog. *)
Theorem cached_executable_is_used (s : Sys) :
  truthy (configured_path (host s)) = false ->
  truthy (_git_binary_path_fallback (self s)) = true ->
  let s' := fst (load_settings s) in
  snd (load_settings s) = Ok tt /\
  git_binary_path (self s') = _git_binary_path_fallback (self s) /\
  _git_binary_path_fallback (self s') = _git_binary_path_fallback (self s) /\
  events (host s') = events (host s).
Proof.
  intros Hc Hf. cbv zeta. destruct s as [h r]. simpl in *.
  assert (Hloc :
    (configure_git_binary ;;; locate_git_binary) (mkSys h (bound r)) =
    (mkSys h (set_git_binary_path (_git_binary_path_fallback r) (bound r)),
     Ok tt)).
  { rewrite (bind_ok _ _ _ _ _ (configure_git_binary_run h r)).
    now rewrite (locate_uses_fallback h (bound r) _ Hc Hf). }
  rewrite (load_settings_from_located (mkSys h r) _ Hloc).
  match goal with |- context [_ {| host := h; self := ?r1 |}] =>
    destruct (resolved_load_completes h r1 eq_refl Hf) as [Hok Hh];
    destruct (report_and_switches_keep_executable (mkSys h r1)) as [Hp1 Hf1]
  end.
  rewrite Hok, Hp1, Hf1, Hh. auto.
Qed.

Lemma cached_executable_is_used_witness :
  let s := run [CallLoadSettings; HostChange bare_host]
             (startup (git_host ∅) "GitGutter") in
  snd (load_settings s) = Ok tt /\
  git_binary_path (self (fst (load_settings s))) = VStr "/usr/bin/git".
Proof.
  intros s.
  destruct (cached_executable_is_used s) as (Hok & Hp & _);
    [reflexivity | reflexivity |].
  split; [exact Hok | rewrite Hp; reflexivity].
Defined.

Lemma keeps_cached_refl s : keeps_cached s s.
Proof. intros _. reflexivity. Qed.

Lemma keeps_cached_trans s1 s2 s3 :
  keeps_cached s1 s2 -> keeps_cached s2 s3 -> keeps_cached s1 s3.
Proof.
  unfold keeps_cached. intros H12 H23 H1.
  rewrite <- (H12 H1). apply H23. now rewrite (H12 H1).
Qed.

(** The cache is written only on the branches taken when it is empty. *)
Lemma locate_git_binary_keeps_cached : preserves keeps_cached locate_git_binary.
Proof.
  intros [h r] Hf. simpl in Hf.
  unfold locate_git_binary, bind, read, lift_result. simpl.
  destruct (truthy (git_binary_path r)).
  - destruct (git_binary_path r) as [| b | z | p | d]; simpl;
      try reflexivity;
      destruct (os_path_expandvars_nonstr h _); reflexivity.
  - rewrite Hf. reflexivity.
Qed.

Lemma exec_keeps_cached c s : keeps_cached s (exec c s).
Proof.
  pose proof keeps_cached_refl as Hr. pose proof keeps_cached_trans as Ht.
  pose proof locate_git_binary_keeps_cached as Hlocate.
  assert (Hleaf_self : forall f : Settings -> Settings,
            (forall r, _git_binary_path_fallback (f r)
                       = _git_binary_path_fallback r) ->
            preserves keeps_cached (update_self f)).
  { intros f Hf [h r] _. simpl. apply Hf. }
  assert (Hleaf_host : forall f : Host -> Host,
            preserves keeps_cached (update_host f)).
  { intros f [h r] _. reflexivity. }
  assert (Hload : preserves keeps_cached load_settings).
  { unfold load_settings, configure_git_binary, report_missing_git_binary,
      load_diff_switches.
    preserves_walk;
      first [apply Hleaf_host | apply Hleaf_self; intros; reflexivity]. }
  assert (Hget : forall key dflt, preserves keeps_cached (get key dflt)).
  { intros key dflt. unfold get. preserves_walk. }
  destruct c; simpl.
  - apply Hload.
  - apply Hget.
  - assert (Hp : preserves keeps_cached (set key v)).
    { unfold set, obj_set. preserves_walk. }
    apply Hp.
  - assert (Hp : preserves keeps_cached (get_compare_against git_tree view)).
    { pose proof (Hget "compare_against" (VStr "HEAD")).
      unfold get_compare_against. preserves_walk. }
    apply Hp.
  - intros _. reflexivity.
  - assert (Hp : preserves keeps_cached (get_show_in_minimap view)).
    { pose proof (Hget "show_in_minimap" (VInt 1)).
      unfold get_show_in_minimap. preserves_walk. }
    apply Hp.
  - assert (Hp : preserves keeps_cached theme_path).
    { pose proof (Hget "theme" (VStr "Default.gitgutter-theme")).
      unfold theme_path. preserves_walk;
        first [apply Hleaf_host | apply Hleaf_self; intros; reflexivity]. }
    apply Hp.
  - intros _. reflexivity.
Qed.

(** X6: the cache of the executable is written once: when it holds a
    path, no call of the process - loads under any settings and on any
    host, accessors, lookups, overrides - replaces or clears it. *)
Theorem cached_executable_is_permanent (s : Sys) (cs : list call) :
  truthy (_git_binary_path_fallback (self s)) = true ->
  _git_binary_path_fallback (self (run cs s))
  = _git_binary_path_fallback (self s).
Proof.
  revert s. induction cs as [| c cs IH]; intros s Hf; simpl.
  - reflexivity.
  - pose proof (exec_keeps_cached c s Hf) as Hc.
    rewrite IH by now rewrite Hc. exact Hc.
Qed.

Lemma cached_executable_is_permanent_witness :
  let s := fst (load_settings (startup (git_host ∅) "GitGutter")) in
  let cs := [HostChange (linux_host 3126 ∅ ∅ ∅ [] (Some "/opt/bin/git")
                           (fun _ => []));
             CallLoadSettings; CallThemePath; HostChange bare_host;
             CallLoadSettings] in
  _git_binary_path_fallback (self (run cs s)) = VStr "/usr/bin/git".
Proof.
  intros s cs.
  rewrite (cached_executable_is_permanent s cs); reflexivity.
Defined.

(** ** The configured executable, continued *)

Lemma configured_string_is_expanded h r p :
  configured_path h = VStr p -> p <> EmptyString ->
  let out := load_settings (mkSys h r) in
  git_binary_path (self (fst out)) = VStr (os_path_expandvars h p) /\
  _git_binary_path_fallback (self (fst out)) = _git_binary_path_fallback r.
Proof.
  intros Hc Hp. cbv zeta.
  assert (Ht : truthy (VStr p) = true).
  { simpl. now rewrite (proj2 (String.eqb_neq _ _) Hp). }
  assert (Hloc :
    (configure_git_binary ;;; locate_git_binary) (mkSys h (bound r)) =
    (mkSys h (set_git_binary_path (VStr (os_path_expandvars h p)) (bound r)),
     Ok tt)).
  { rewrite (bind_ok _ _ _ _ _ (configure_git_binary_run h r)), Hc.
    now rewrite (locate_configured h (bound r) p Ht). }
  rewrite (load_settings_from_located (mkSys h r) _ Hloc).
  match goal with |- context [_ {| host := h; self := ?r1 |}] =>
    destruct (report_and_switches_keep_executable (mkSys h r1)) as [Hp1 Hf1]
  end.
  rewrite Hp1, Hf1. auto.
Qed.

(** X7: a non-empty string configured as 'git_binary' decides the
    executable: the user's value wins whatever the plugin's file holds, the
    plugin's value is taken when the user's is missing or falsy; either
    way the expanded string becomes the path whatever is cached or on the
    [PATH], and the cache is left as it was. *)
Theorem configured_string_wins (s : Sys) (p : string) :
  let user := store_get (preferences_file (host s)) "git_binary" VNone in
  let plugin := store_get (plugin_file (host s)) "git_binary" VNone in
  p <> EmptyString ->
  user = VStr p \/ (truthy user = false /\ plugin = VStr p) ->
  let s' := fst (load_settings s) in
  git_binary_path (self s') = VStr (os_path_expandvars (host s) p) /\
  _git_binary_path_fallback (self s') = _git_binary_path_fallback (self s).
Proof.
  cbv zeta. intros Hp Hcfg. destruct s as [h r]. simpl in *.
  apply configured_string_is_expanded; [| exact Hp].
  unfold configured_path, configured_git_binary, py_or.
  destruct Hcfg as [-> | [-> ->]]; simpl;
    [now rewrite (proj2 (String.eqb_neq _ _) Hp) | reflexivity].
Qed.

Lemma configured_string_wins_witness :
  let s := run [CallLoadSettings;
                HostChange
                  (linux_host 3126 {[ "git_binary" := VStr "/opt/git" ]}
                     {[ "git_binary" := VStr "/home/me/bin/git" ]} ∅ []
                     (Some "/usr/bin/git") (fun _ => []))]
             (startup (git_host ∅) "GitGutter") in
  git_binary_path (self (fst (load_settings s))) = VStr "/home/me/bin/git" /\
  _git_binary_path_fallback (self (fst (load_settings s)))
  = VStr "/usr/bin/git".
Proof.
  intros s.
  apply (configured_string_wins s "/home/me/bin/git");
    [discriminate | left; reflexivity].
Defined.

(** ** The search along PATH *)

Lemma find_first {A} (f : A -> bool) (before : list A) (x : A)
    (rest : list A) :
  Forall (fun y => f y = false) before -> f x = true ->
  List.find f (before ++ x :: rest) = Some x.
Proof.
  intros Hb Hx. induction Hb as [| y before Hy _ IH]; simpl.
  - now rewrite Hx.
  - now rewrite Hy.
Qed.

Lemma find_nothing {A} (f : A -> bool) (l : list A) :
  Forall (fun y => f y = false) l -> List.find f l = None.
Proof.
  intros Hl. induction Hl as [| y l Hy _ IH]; simpl; [reflexivity |].
  now rewrite Hy.
Qed.

(** X8: before Sublime Text 3, when the settings configure no usable path
    and nothing is cached, a load walks the folders of [PATH] in order
    (quotes around a folder stripped, 'git.exe' on Windows and 'git'
    elsewhere joined to it): the first candidate that is a file and
    executable becomes the executable path and is cached; when no candidate
    passes, the path stays unresolved and nothing is cached. *)
Theorem path_search_takes_first_executable (s : Sys) (path_var : string) :
  sublime_version (host s) < 3000 ->
  truthy (configured_path (host s)) = false ->
  truthy (_git_binary_path_fallback (self s)) = false ->
  os_environ (host s) !! "PATH" = Some path_var ->
  let h := host s in
  let after := self (fst (load_settings s)) in
  (forall (before : list string) (path : string) (rest : list string),
     path_candidates h path_var = (before ++ path :: rest)%list ->
     Forall (fun q => is_executable_file h q = false) before ->
     is_executable_file h path = true ->
     git_binary_path after = VStr path /\
     _git_binary_path_fallback after = VStr path) /\
  (Forall (fun q => is_executable_file h q = false)
     (path_candidates h path_var) ->
   truthy (git_binary_path after) = false /\
   _git_binary_path_fallback after = _git_binary_path_fallback (self s)).
Proof.
  intros Hv Hc Hf Hpath. cbv zeta. destruct s as [h r]. simpl in *.
  assert (Hst : ST3 h = false) by (apply Z.leb_gt; exact Hv).
  pose proof (locate_searches_PATH h (bound r) _ Hc Hf Hst) as Hloc.
  rewrite Hpath in Hloc.
  split.
  - intros before path rest Hsplit Hbefore Hexe.
    rewrite Hsplit, (find_first _ _ _ _ Hbefore Hexe) in Hloc.
    rewrite (load_settings_from_located (mkSys h r) _
               (eq_trans (bind_ok _ _ _ _ _ (configure_git_binary_run h r))
                  Hloc)).
    match goal with |- context [_ {| host := h; self := ?r1 |}] =>
      destruct (report_and_switches_keep_executable (mkSys h r1))
        as [Hp1 Hf1]
    end.
    rewrite Hp1, Hf1. auto.
  - intros Hnone. rewrite (find_nothing _ _ Hnone) in Hloc.
    rewrite (load_settings_from_located (mkSys h r) _
               (eq_trans (bind_ok _ _ _ _ _ (configure_git_binary_run h r))
                  Hloc)).
    match goal with |- context [_ {| host := h; self := ?r1 |}] =>
      destruct (report_and_switches_keep_executable (mkSys h r1))
        as [Hp1 Hf1]
    end.
    rewrite Hp1, Hf1. simpl. auto.
Qed.

Lemma path_search_takes_first_executable_witness :
  let h := linux_host 2221 ∅ ∅
             {[ "PATH" := "/usr/local/bin:/usr/bin:/opt/git/bin" ]}
             ["/opt/git/bin/git"; "/usr/bin/git"] None (fun _ => []) in
  let s := startup h "GitGutter" in
  git_binary_path (self (fst (load_settings s))) = VStr "/usr/bin/git" /\
  _git_binary_path_fallback (self (fst (load_settings s)))
  = VStr "/usr/bin/git".
Proof.
  intros h s.
  destruct (path_search_takes_first_executable s
              "/usr/local/bin:/usr/bin:/opt/git/bin") as [Hfound _];
    [vm_compute; reflexivity | reflexivity | reflexivity
    | vm_compute; reflexivity |].
  apply (Hfound ["/usr/local/bin/git"] "/usr/bin/git" ["/opt/git/bin/git"]).
  - vm_compute. reflexivity.
  - repeat constructor.
  - vm_compute. reflexivity.
Defined.

(** X9: before Sublime Text 3, when the settings configure no usable path,
    nothing is cached and the environment has no [PATH], a load is aborted
    by the [KeyError] of the environment lookup: without a dialog, with the
    shown-flag as it was, and before the diff switches are read. *)
Theorem path_search_without_PATH (s : Sys) :
  sublime_version (host s) < 3000 ->
  truthy (configured_path (host s)) = false ->
  truthy (_git_binary_path_fallback (self s)) = false ->
  os_environ (host s) !! "PATH" = None ->
  let s' := fst (load_settings s) in
  snd (load_settings s) = Raise (KeyError "PATH") /\
  events (host s') = events (host s) /\
  _git_binary_path_error_shown (self s')
  = _git_binary_path_error_shown (self s) /\
  ignore_whitespace (self s') = ignore_whitespace (self s) /\
  patience_switch (self s') = patience_switch (self s).
Proof.
  intros Hv Hc Hf Hpath. cbv zeta. destruct s as [h r]. simpl in *.
  assert (Hst : ST3 h = false) by (apply Z.leb_gt; exact Hv).
  pose proof (locate_searches_PATH h (bound r) _ Hc Hf Hst) as Hloc.
  rewrite Hpath in Hloc.
  rewrite load_settings_unfold. simpl. fold (bound r).
  rewrite (bind_ok _ _ _ _ _ (configure_git_binary_run h r)).
  rewrite (bind_raise _ _ _ _ _ Hloc). simpl. auto.
Qed.

Lemma path_search_without_PATH_witness :
  let s := startup (st2_host ∅) "GitGutter" in
  snd (load_settings s) = Raise (KeyError "PATH") /\
  events (host (fst (load_settings s))) = [].
Proof.
  intros s.
  destruct (path_search_without_PATH s) as (Hr & He & _);
    [vm_compute; reflexivity | reflexivity | reflexivity | reflexivity |].
  split; [exact Hr | exact He].
Defined.

(** ** The patience switch and the dialog *)

(** X10: after a [load_settings] that ran to its end, [patience_switch] is
    '--patience' when the plugin's 'patience' setting is truthy and the
    empty string when it is falsy or absent. *)
Theorem load_settings_patience_switch (s : Sys) :
  snd (load_settings s) = Ok tt ->
  let setting := store_get (plugin_file (host s)) "patience" VNone in
  let field := patience_switch (self (fst (load_settings s))) in
  (truthy setting = true -> field = VStr "--patience") /\
  (truthy setting = false -> field = VStr EmptyString).
Proof.
  intros Hok. cbv zeta.
  destruct (load_settings_completes s Hok) as (s2 & -> & Hb & Hp).
  destruct s2 as [h2 r2]. simpl in Hb, Hp.
  rewrite (load_diff_switches_run h2 r2 Hb). simpl. rewrite Hp.
  split; intros ->; reflexivity.
Qed.

Lemma load_settings_patience_switch_witness :
  let s := startup (git_host {[ "patience" := VBool true ]}) "GitGutter" in
  patience_switch (self (fst (load_settings s))) = VStr "--patience".
Proof.
  intros s. apply (load_settings_patience_switch s); reflexivity.
Defined.

(** X11: a load shows the not-found dialog only together with its error:
    either the load leaves the event log and the shown-flag as they were,
    or it appended exactly that one dialog, the flag was unset and is now
    set, the path is unresolved and the load raised [ValueError]. In
    particular a load that returns has shown nothing. *)
Theorem dialog_comes_with_value_error (s : Sys) :
  let s' := fst (load_settings s) in
  (events (host s') = events (host s) /\
   _git_binary_path_error_shown (self s')
   = _git_binary_path_error_shown (self s)) \/
  (events (host s')
   = (events (host s) ++ [EvErrorMessage not_found_msg])%list /\
   snd (load_settings s) = Raise (ValueError "Git binary not found.") /\
   _git_binary_path_error_shown (self s) = false /\
   _git_binary_path_error_shown (self s') = true /\
   truthy (git_binary_path (self s')) = false).
Proof.
  cbv zeta.
  destruct (git_binary_resolution_post s) as (Hb & Hf & He).
  rewrite load_settings_split.
  destruct (git_binary_resolution s) as [[h1 r1] [[] | e]] eqn:E;
    simpl in Hb, Hf, He;
    [rewrite (bind_ok _ _ _ _ _ E) | rewrite (bind_raise _ _ _ _ _ E)];
    [| left; simpl; split; congruence].
  destruct (truthy (git_binary_path r1)) eqn:Hp.
  - rewrite (bind_ok _ _ _ _ _ (report_resolved (mkSys h1 r1) Hp)).
    rewrite (load_diff_switches_run h1 r1 Hb). left. simpl.
    split; congruence.
  - destruct (_git_binary_path_error_shown r1) eqn:Hs.
    + rewrite (bind_ok _ _ _ _ _
                 (report_later_failure (mkSys h1 r1) Hp Hs)).
      rewrite (load_diff_switches_run h1 r1 Hb). left. simpl.
    split; congruence.
    + rewrite (bind_raise _ _ _ _ _
                 (report_first_failure (mkSys h1 r1) Hp Hs)).
      right. simpl. rewrite He. repeat split; congruence.
Qed.

(** ** Writing and reading a setting *)

Lemma file_store_set h f m : file_store (set_file_store h f m) f = m.
Proof. destruct f; reflexivity. Qed.

Lemma set_bound s key v f :
  _settings (self s) = Some f ->
  set key v s =
  (mkSys (set_file_store (host s) f (<[key:=v]> (file_store (host s) f)))
     (self s), Ok VNone).
Proof.
  intros Hb. destruct s as [h r]. simpl in *.
  unfold set, bind, read. simpl. rewrite Hb. simpl. rewrite Hb. reflexivity.
Qed.

Lemma get_of_written h r f key v dflt :
  _settings r = Some f ->
  let s' := mkSys (set_file_store h f (<[key:=v]> (file_store h f))) r in
  get key dflt s' = (s', Ok v).
Proof.
  intros Hb. cbv zeta.
  rewrite (get_no_load
             (mkSys (set_file_store h f (<[key:=v]> (file_store h f))) r)
             key dflt f Hb).
  - simpl. rewrite file_store_set. unfold store_get.
    now rewrite lookup_insert_eq.
  - unfold needs_load. simpl. rewrite Hb, file_store_set. unfold store_has.
    rewrite lookup_insert_eq. rewrite bool_decide_eq_true_2; eauto.
Qed.

(** X12: a value written with [set] is read back by [get]: when
    [set key v] returns, the next [get key default] returns [v], not the
    default, and does so without loading the settings again or changing
    anything. *)
Theorem get_after_set (s : Sys) (key : string) (v dflt : value) :
  (exists r, snd (set key v s) = Ok r) ->
  let s' := fst (set key v s) in
  get key dflt s' = (s', Ok v).
Proof.
  intros [r Hok]. cbv zeta.
  destruct (_settings (self s)) as [f |] eqn:Hb.
  - rewrite (set_bound s key v f Hb). simpl.
    now apply get_of_written.
  - pose proof (load_settings_binds s) as Hbinds.
    rewrite (set_unbound s key v Hb) in Hok |- *.
    destruct (load_settings s) as [[h1 r1] [[] | e]]; simpl in *;
      [| discriminate].
    exact (get_of_written h1 r1 GitGutter_sublime_settings key v dflt
             Hbinds).
Qed.

Lemma get_after_set_witness :
  let s := startup (git_host ∅) "GitGutter" in
  let s' := fst (set "theme" (VStr "Bars.gitgutter-theme") s) in
  get "theme" (VStr "Default.gitgutter-theme") s'
  = (s', Ok (VStr "Bars.gitgutter-theme")).
Proof.
  intros s s'.
  apply (get_after_set s "theme" (VStr "Bars.gitgutter-theme")).
  exists VNone. reflexivity.
Defined.

(** X13: [set] writes one key of the plugin's settings and nothing else:
    when it returns, the plugin's file is the old one with [key] bound to
    the value and the user's file is untouched; when it raises (the lazy
    load failed), neither file has changed. *)
Theorem set_writes_one_key (s : Sys) (key : string) (v : value) :
  _settings (self s) = None \/
  _settings (self s) = Some GitGutter_sublime_settings ->
  let s' := fst (set key v s) in
  ((exists r, snd (set key v s) = Ok r) ->
     plugin_file (host s') = <[key:=v]> (plugin_file (host s)) /\
     preferences_file (host s') = preferences_file (host s)) /\
  ((exists e, snd (set key v s) = Raise e) ->
     plugin_file (host s') = plugin_file (host s) /\
     preferences_file (host s') = preferences_file (host s)).
Proof.
  intros Hb. cbv zeta. destruct Hb as [Hb | Hb].
  - destruct (frame_files_kept _ _ (load_settings_frame s)) as [Hp Hu].
    rewrite (set_unbound s key v Hb).
    destruct (load_settings s) as [[h1 r1] [[] | e]]; simpl in *.
    + split; [intros _ | intros [e He]; discriminate].
      now rewrite Hp, Hu.
    + split; [intros [r Hr]; discriminate | intros _]. auto.
  - rewrite (set_bound s key v _ Hb). simpl.
    split; [intros _; auto | intros [e He]; discriminate].
Qed.

Lemma set_writes_one_key_witness :
  let s := startup (git_host {[ "patience" := VBool true ]}) "GitGutter" in
  plugin_file (host (fst (set "theme" (VStr "Bars.gitgutter-theme") s)))
  = <[ "theme" := VStr "Bars.gitgutter-theme" ]>
      ({[ "patience" := VBool true ]} : gmap string value).
Proof.
  intros s.
  destruct (set_writes_one_key s "theme" (VStr "Bars.gitgutter-theme"))
    as [Hok _]; [left; reflexivity |].
  apply Hok. exists VNone. reflexivity.
Defined.

(** ** The minimap width, continued *)

(** X14: [get_show_in_minimap] never returns a negative integer: whenever
    it returns an integer - on any host, with any view and plugin settings
    - that integer is zero or positive. *)
Theorem get_show_in_minimap_never_negative (s : Sys) (view : View) (n : Z) :
  snd (get_show_in_minimap view s) = Ok (VInt n) -> 0 <= n.
Proof.
  assert (Hclamp : forall (s0 : Sys) (w : value),
    snd (match zero_le w with
         | Ok nonneg => (s0, Ok (if nonneg then w else VInt 100000))
         | Raise e => (s0, Raise e)
         end) = Ok (VInt n) -> 0 <= n).
  { intros s0 [| b | z | t | d]; simpl; try discriminate.
    destruct (Z.leb 0 z) eqn:E; intros [= <-]; [now apply Z.leb_le | lia]. }
  unfold get_show_in_minimap, bind, read, lift_result, ret. simpl.
  destruct (ST3 (host s)); simpl; [| intros [= <-]; lia].
  destruct (store_get (view_settings view) "git_gutter_show_in_minimap"
              VNone) as [| b | z | t | d] eqn:E;
    [| apply (Hclamp s) ..].
  destruct (get "show_in_minimap" (VInt 1) s) as [s1 [w | e]];
    [apply (Hclamp s1) | discriminate].
Qed.

Lemma get_show_in_minimap_never_negative_witness :
  let s := startup (git_host {[ "show_in_minimap" := VInt (-1) ]})
             "GitGutter" in
  snd (get_show_in_minimap empty_view s) = Ok (VInt 100000) /\ 0 <= 100000.
Proof.
  intros s.
  assert (H : snd (get_show_in_minimap empty_view s) = Ok (VInt 100000))
    by (vm_compute; reflexivity).
  split; [exact H | exact (get_show_in_minimap_never_negative s _ _ H)].
Defined.

(** ** The two settings commands *)

(** X15: for every host version exactly one of the two commands is
    visible: the [open_file] wrapper below build 3124, the [edit_settings]
    wrapper from build 3124 on. *)
Theorem exactly_one_command_is_visible (h : Host) :
  open_file_is_visible h = negb (edit_settings_is_visible h) /\
  (edit_settings_is_visible h = true <-> 3124 <= sublime_version h).
Proof.
  unfold open_file_is_visible, edit_settings_is_visible, STVER. split.
  - apply Z.ltb_antisym.
  - apply Z.leb_le.
Qed.

Lemma prefix_append (u s : string) : String.prefix u (u ++ s) = true.
Proof.
  induction u as [| c u IH]; [now destruct s |].
  change (String c u ++ s)%string with (String c (u ++ s)). simpl.
  destruct (ascii_dec c c); [exact IH | congruence].
Qed.

Lemma replace_from_skips (old new u s : string) :
  replace_from old new (String.length u) (u ++ s)
  = replace_from old new 0 s.
Proof.
  induction u as [| c u IH]; [reflexivity |].
  change (String c u ++ s)%string with (String c (u ++ s)). exact IH.
Qed.

Lemma str_replace_occurrence (c : ascii) (old new s : string) :
  str_replace (String c old) new (String c old ++ s)
  = (new ++ str_replace (String c old) new s)%string.
Proof.
  unfold str_replace.
  change (String c old ++ s)%string with (String c (old ++ s)).
  cbn [replace_from].
  change (String c (old ++ s)) with (String c old ++ s)%string.
  rewrite prefix_append. f_equal.
  cbn [String.length]. rewrite Nat.sub_1_r. cbn [Nat.pred].
  apply replace_from_skips.
Qed.

Lemma str_replace_other_chars (c : ascii) (old new a s : string) :
  contains_char c a = false ->
  str_replace (String c old) new (a ++ s)
  = (a ++ str_replace (String c old) new s)%string.
Proof.
  unfold str_replace. induction a as [| x a IH]; [reflexivity |].
  cbn [contains_char]. intros Hx. apply orb_false_elim in Hx as [Hx Ha].
  change (String x a ++ s)%string with (String x (a ++ s)).
  change (String x a ++ replace_from (String c old) new 0 s)%string
    with (String x (a ++ replace_from (String c old) new 0 s)).
  cbn [replace_from String.prefix].
  destruct (ascii_dec c x) as [-> | _];
    [now rewrite Ascii.eqb_refl in Hx |].
  now rewrite (IH Ha).
Qed.

Lemma str_replace_nothing (c : ascii) (old new a : string) :
  contains_char c a = false -> str_replace (String c old) new a = a.
Proof.
  unfold str_replace. induction a as [| x a IH]; [reflexivity |].
  cbn [contains_char]. intros Hx. apply orb_false_elim in Hx as [Hx Ha].
  cbn [replace_from String.prefix].
  destruct (ascii_dec c x) as [-> | _];
    [now rewrite Ascii.eqb_refl in Hx |].
  now rewrite (IH Ha).
Qed.

(** X16: [GitGutterOpenFileCommand.run] on osx, windows or linux runs
    [open_file] on the file name with its platform placeholder replaced by
    the platform's display name - 'OSX' on osx, 'Windows' on windows,
    'Linux' on linux: what precedes the placeholder without a dollar sign
    is kept as it is, what follows is treated the same way, and a name
    without a dollar sign is passed on unchanged. *)
Theorem open_file_run_expands_platform
    (h : Host) (name a b : string) :
  (sublime_platform h = "osx" /\ name = "OSX") \/
  (sublime_platform h = "windows" /\ name = "Windows") \/
  (sublime_platform h = "linux" /\ name = "Linux") ->
  contains_char "$" a = false ->
  open_file_run h (a ++ "${platform}" ++ b) =
    Ok (mkCommand "open_file"
          {[ "file" :=
               VStr (a ++ name ++ str_replace "${platform}" name b) ]}) /\
  open_file_run h a = Ok (mkCommand "open_file" {[ "file" := VStr a ]}) /\
  (contains_char "$" b = false -> str_replace "${platform}" name b = b).
Proof.
  intros Hp Ha.
  assert (Hn : platform_names !! sublime_platform h = Some name).
  { destruct Hp as [[-> ->] | [[-> ->] | [-> ->]]]; reflexivity. }
  unfold open_file_run. rewrite Hn. repeat split.
  - now rewrite (str_replace_other_chars "$" "{platform}" name a _ Ha),
      (str_replace_occurrence "$" "{platform}" name b).
  - now rewrite (str_replace_nothing "$" "{platform}" name a Ha).
  - apply str_replace_nothing.
Qed.

Lemma open_file_run_expands_platform_witness :
  open_file_run bare_host
    "Packages/GitGutter/Default (${platform}).sublime-keymap"
  = Ok (mkCommand "open_file"
          {[ "file" :=
               VStr "Packages/GitGutter/Default (Linux).sublime-keymap" ]}).
Proof.
  destruct (open_file_run_expands_platform bare_host "Linux"
              "Packages/GitGutter/Default (" ").sublime-keymap")
    as (Hrun & _ & Hrest);
    [right; right; split; reflexivity | reflexivity |].
  rewrite (Hrest eq_refl) in Hrun. exact Hrun.
Defined.

(** X17: on a platform other than osx, windows and linux
    [GitGutterOpenFileCommand.run] runs no command: the lookup of the
    platform's display name raises [KeyError]. *)
Theorem open_file_run_unknown_platform (h : Host) (file : string) :
  sublime_platform h <> "osx" ->
  sublime_platform h <> "windows" ->
  sublime_platform h <> "linux" ->
  open_file_run h file = Raise (KeyError (sublime_platform h)).
Proof.
  intros Ho Hw Hl. unfold open_file_run, platform_names.
  rewrite lookup_insert_ne by congruence.
  rewrite lookup_insert_ne by congruence.
  rewrite lookup_singleton_ne by congruence. reflexivity.
Qed.

Lemma open_file_run_unknown_platform_witness :
  let h := change_host
             (mkHost 3126 "freebsd" ∅ ∅ ∅ (os_pathsep bare_host)
                (os_path_join bare_host) (os_path_isfile bare_host)
                (os_access_X_OK bare_host) (os_path_expandvars bare_host)
                (os_path_expandvars_nonstr bare_host)
                (os_path_basename bare_host) (os_path_dirname bare_host)
                (os_path_splitext bare_host) None (fun _ => [])
                (sublime_find_resources_nonstr bare_host) [])
             bare_host in
  open_file_run h "${platform}.txt" = Raise (KeyError "freebsd").
Proof.
  intros h.
  apply (open_file_run_unknown_platform h); discriminate.
Defined.

(** ** The store and the resource index over a process *)

(** X18: the plugin's store is unset only before the first load: once it
    is bound to the plugin's settings file, it stays bound to that file
    through every later call, returning or raising, and every change of the
    host - so [get] and [set] take their lazy-load branch for an unset store
    at most at the start of a process. *)
Theorem plugin_store_stays_bound (s : Sys) (cs : list call) :
  _settings (self s) = Some GitGutter_sublime_settings ->
  _settings (self (run cs s)) = Some GitGutter_sublime_settings.
Proof.
  revert s. induction cs as [| c cs IH]; intros s Hb; simpl; [exact Hb |].
  apply IH. destruct (exec_rebinds_plugin_store c s) as [-> | ->];
    [exact Hb | reflexivity].
Qed.

Lemma plugin_store_stays_bound_witness :
  let s := fst (load_settings (startup bare_host "GitGutter")) in
  _settings (self (run [CallSet "theme" VNone; HostChange (git_host ∅);
                        CallLoadSettings; CallThemePath] s))
  = Some GitGutter_sublime_settings.
Proof.
  intros s. apply (plugin_store_stays_bound s). reflexivity.
Defined.

(** X19: before Sublime Text 3 reading [theme_path] never searches the
    host's resources, whatever the theme setting and the cached path are
    and whether the read returns or raises. *)
Theorem theme_path_pre_ST3_never_searches (s : Sys) :
  sublime_version (host s) < 3000 ->
  resource_searches (fst (theme_path s)) = resource_searches s.
Proof.
  intros Hv.
  pose proof (get_frame "theme" (VStr "Default.gitgutter-theme") s) as Hfr.
  pose proof (frame_ST3 _ _ Hfr) as Hst3.
  destruct Hfr as [_ Hsearch _ _ _].
  assert (Hst : ST3 (host s) = false) by (apply Z.leb_gt; exact Hv).
  rewrite Hst in Hst3.
  unfold theme_path, bind at 1.
  destruct (get "theme" (VStr "Default.gitgutter-theme") s)
    as [[h1 r1] [theme | e]]; simpl in *; [| exact Hsearch].
  unfold bind, read, when. simpl. rewrite Hst3.
  destruct (negb (eq_str theme (os_path_basename h1 (_theme_path r1))));
    simpl; [| exact Hsearch].
  destruct theme; simpl; exact Hsearch.
Qed.

Lemma theme_path_pre_ST3_never_searches_witness :
  let s := startup (st2_host {[ "theme" := VStr "Bars.gitgutter-theme";
                               "git_binary" := VStr "/usr/bin/git" ]})
             "GitGutter" in
  resource_searches (fst (theme_path s)) = 0%nat.
Proof.
  intros s. rewrite (theme_path_pre_ST3_never_searches s); [reflexivity |].
  vm_compute. reflexivity.
Defined.
